(** * fit_to_csv: FIT telemetry extraction and self-report intervals

    A shallow embedding of [fit_to_csv.py] (the sensor sample expander, the
    record walk with its self-report detector, the per-file unit and the
    batch driver) together with the properties its specification states.

    Modelling choices, all visible in the definitions below:
    - a decoded message is a Python dict, here a [gmap string value]; a
      value is [None], an [int], a [datetime], a list of those or a dict
      from [int] keys to those.  A dict value is the list of its items in
      insertion order (the keys of a dict are distinct; no statement below
      needs it), and two values are equal when their representations are.
      [float] and [str] field values are outside the model;
    - a [datetime] is a count of microseconds on the proleptic calendar
      (0 is 0001-01-01 00:00:00), so that adding a [timedelta] is integer
      addition with Python's range check;
    - [datetime.fromtimestamp] depends on the platform (local time zone,
      float rounding); it is a field of the class [Clock];
    - [developer_fields] is whatever the decoder hands over: the code's
      default [[]] makes it a list addressed by position, the decoder makes
      it a dict keyed by the number of the developer field, and
      [dev_fields[i]] is read accordingly;
    - exceptions are values of [outcome]; effects on the disk and on the
      standard output are threaded through the monad [IO];
    - the files of a batch and the order in which the pool hands its futures
      back are inputs of [process_all_files]; the effects of a worker are
      taken at once, when its future is collected.  The workers of the pool
      run side by side, so this describes the files they leave only when no
      two of them write to the same path; the statements about those files
      assume it. *)

From Stdlib Require Import ZArith Lia.
From stdpp Require Import base tactics option list strings gmap.

(** ** Python values and exceptions *)

Definition datetime : Type := Z.

Inductive scalar : Type :=
| SNone
| SInt (n : Z)
| SDate (t : datetime).

Inductive value : Type :=
| VScalar (s : scalar)
| VList (l : list scalar)
| VDict (items : list (Z * scalar)).

#[global] Instance scalar_eq_dec : EqDecision scalar.
Proof. solve_decision. Defined.

#[global] Instance value_eq_dec : EqDecision value.
Proof. solve_decision. Defined.

Abbreviation MessageRecord := (gmap string value).
Abbreviation MessageTable := (gmap string (list (gmap string value))).

(** The exceptions of the model, all subclasses of [Exception].  [OSError]
    and [ValueError] are among those a platform's [fromtimestamp] raises;
    [DictKeyError] is the [KeyError] of a dict subscript. *)
Inductive exn : Type :=
| TypeError
| ValueError
| IndexError
| DictKeyError
| OverflowError
| OSError.

#[global] Instance exn_eq_dec : EqDecision exn.
Proof. solve_decision. Defined.

Inductive outcome (A : Type) : Type :=
| Returned (a : A)
| Raised (e : exn).

Arguments Returned {A} a.
Arguments Raised {A} e.

Definition bind {A B : Type} (m : outcome A) (k : A → outcome B) : outcome B :=
  match m with
  | Returned a => k a
  | Raised e => Raised e
  end.

Declare Scope py_scope.
Delimit Scope py_scope with py.
Notation "x <- m ;; k" := (bind m (fun x => k))
  (at level 100, m at next level, right associativity) : py_scope.
Open Scope py_scope.

(** [[f(a) for a in l]]: the first exception aborts the comprehension. *)
Fixpoint comprehension {A B : Type} (f : A → outcome B) (l : list A) : outcome (list B) :=
  match l with
  | [] => Returned []
  | a :: l' => b <- f a ;; bs <- comprehension f l' ;; Returned (b :: bs)
  end.

(** [d.get(key, dflt)] *)
Definition get (d : gmap string value) (key : string) (dflt : value) : value :=
  default dflt (d !! key).

(** [len(v)] *)
Definition len (v : value) : outcome nat :=
  match v with
  | VList l => Returned (length l)
  | VDict items => Returned (length items)
  | VScalar _ => Raised TypeError
  end.

(** iteration over [v], as [list.extend] and a comprehension do; a dict
    gives its keys *)
Definition iter (v : value) : outcome (list scalar) :=
  match v with
  | VList l => Returned l
  | VDict items => Returned ((λ item, SInt item.1) <$> items)
  | VScalar _ => Raised TypeError
  end.

(** truth value of [v] in a condition *)
Definition truthy (v : value) : bool :=
  match v with
  | VList [] => false
  | VList (_ :: _) => true
  | VDict [] => false
  | VDict (_ :: _) => true
  | VScalar SNone => false
  | VScalar (SInt n) => negb (n =? 0)%Z
  | VScalar (SDate _) => true
  end.

(** The value a dict holds under [key]. *)
Fixpoint lookup_key (key : Z) (items : list (Z * scalar)) : option scalar :=
  match items with
  | [] => None
  | (k, s) :: rest => if (k =? key)%Z then Some s else lookup_key key rest
  end.

(** [v[i]] for a literal index [i >= 0]: the position [i] of a list, the key
    [i] of a dict *)
Definition getitem (v : value) (i : nat) : outcome scalar :=
  match v with
  | VList l =>
      match l !! i with
      | Some s => Returned s
      | None => Raised IndexError
      end
  | VDict items =>
      match lookup_key (Z.of_nat i) items with
      | Some s => Returned s
      | None => Raised DictKeyError
      end
  | VScalar _ => Raised TypeError
  end.

(** [s == n] for an int literal [n] *)
Definition eq_int (s : scalar) (n : Z) : bool :=
  match s with
  | SInt m => (m =? n)%Z
  | _ => false
  end.

(** ** Dates *)

Definition US_PER_DAY : Z := 86400000000.

(** [datetime.max] is the last microsecond of ordinal day 3652059. *)
Definition DATETIME_END : Z := 3652059 * US_PER_DAY.

(** [datetime.timedelta(milliseconds=ms)], in microseconds *)
Definition timedelta (ms : scalar) : outcome Z :=
  match ms with
  | SInt n =>
      let us := (n * 1000)%Z in
      if (Z.abs (us `div` US_PER_DAY) <=? 999999999)%Z
      then Returned us else Raised OverflowError
  | _ => Raised TypeError
  end.

(** [t + d] for a datetime [t] and a timedelta [d] *)
Definition datetime_add (t : datetime) (d : Z) : outcome datetime :=
  let r := (t + d)%Z in
  if ((0 <=? r) && (r <? DATETIME_END))%Z
  then Returned r else Raised OverflowError.

(** The platform's [datetime.datetime.fromtimestamp]: [fromtimestamp n] for an
    int [n] of seconds, [fromtimestamp_ms n] for [fromtimestamp(n / 1000.0)]. *)
Class Clock : Type := {
  fromtimestamp : Z → outcome datetime;
  fromtimestamp_ms : Z → outcome datetime
}.

Definition UNIX_EPOCH : Z := 719162 * US_PER_DAY.

(** A clock in the UTC zone on which the float division is exact; used for
    the concrete runs below. *)
Definition utc_clock : Clock := {|
  fromtimestamp n :=
    let r := (UNIX_EPOCH + n * 1000000)%Z in
    if ((0 <=? r) && (r <? DATETIME_END))%Z then Returned r else Raised OverflowError;
  fromtimestamp_ms n :=
    let r := (UNIX_EPOCH + n * 1000)%Z in
    if ((0 <=? r) && (r <? DATETIME_END))%Z then Returned r else Raised OverflowError
|}.

(** ** Paths, output tables and the world *)

Record Path : Type := { stem : string; suffix : string }.

Definition name (p : Path) : string := stem p +:+ suffix p.

Record SensorFrame : Type := {
  sf_timestamp : list datetime;
  sf_x : list scalar;
  sf_y : list scalar;
  sf_z : list scalar
}.

(** The text [str(v)] of a developer value. *)
Inductive pystr : Type := str (v : scalar).

Record RecordFrame : Type := {
  rf_timestamp : list datetime;
  rf_heart_rate : list value;
  rf_developer_field : list (option pystr)
}.

(** The end of an interval: the string ['NAN'] while open. *)
Inductive end_timestamp : Type :=
| NAN
| Closed (t : datetime).

Record SelfReport : Type := {
  start_timestamp : datetime;
  sr_end_timestamp : end_timestamp;
  sr_event_type : scalar
}.

Inductive table : Type :=
| SensorCsv (df : SensorFrame)
| RecordCsv (df : RecordFrame)
| SelfReportCsv (df : list SelfReport).

(** The lines of the standard output, without the values that depend on the
    wall clock.  The two banner lines of [process_all_files] (output
    directory, separator) are left out, and its two timing lines are one. *)
Inductive line : Type :=
| Warning_errors_found (file : string)
| Error_decoding (file : string)
| No_sensor_data (sensor_type file : string)
| No_record_messages (file : string)
| Wrote (rows : nat) (kind csv : string)
| Processing_time (file : string)
| No_fit_files
| Found_files (n : nat)
| Multiprocessing (enabled : bool)
| Processing (file : string)
| Error_processing (file : string) (e : exn)
| Total_and_average_time
| Successfully_processed (success_count total : nat).

Record world : Type := {
  disk : gmap string table;
  stdout : list line
}.

Definition IO (A : Type) : Type := world → outcome A * world.

Definition ret {A : Type} (a : A) : IO A := fun w => (Returned a, w).

Definition iobind {A B : Type} (m : IO A) (k : A → IO B) : IO B :=
  fun w =>
    match m w with
    | (Returned a, w') => k a w'
    | (Raised e, w') => (Raised e, w')
    end.

Notation "x <~ m ;; k" := (iobind m (fun x => k))
  (at level 100, m at next level, right associativity) : py_scope.
Notation "m ;;; k" := (iobind m (fun _ => k))
  (at level 100, right associativity) : py_scope.

Definition print (l : line) : IO unit :=
  fun w => (Returned tt, {| disk := disk w; stdout := stdout w ++ [l] |}).

(** [df.to_csv(path)]: the file at [path] is created or replaced; the disk
    never refuses. *)
Definition to_csv (t : table) (path : string) : IO unit :=
  fun w => (Returned tt, {| disk := <[path := t]> (disk w); stdout := stdout w |}).

Definition lift {A : Type} (m : outcome A) : IO A := fun w => (m, w).

(** A processor whose file has been decoded: [self.file_path] and
    [self.messages]. *)
Record FastFitFileProcessor : Type := {
  file_path : Path;
  messages : MessageTable
}.

(** What the Garmin decoder does with a file: [decoder.read()] returns the
    messages and the list of errors, or raises. *)
Record FitFile : Type := {
  fit_path : Path;
  fit_read : outcome (MessageTable * list string)
}.

Definition VALID_SELF_REPORT_EVENT_TYPES : gset Z := {[ 1; 2 ]}%Z.

(** [event_type in VALID_SELF_REPORT_EVENT_TYPES]: [None] and a [datetime]
    hash and are no member. *)
Definition in_valid_event_types (event_type : scalar) : bool :=
  match event_type with
  | SInt n => bool_decide (n ∈ VALID_SELF_REPORT_EVENT_TYPES)
  | _ => false
  end.

Section Extraction.
Context {clock : Clock}.

(** ** Sample-group expander: [_extract_sensor_data_fast] *)

Definition sensor_keys (sensor_type : string) : outcome (string * string) :=
  if decide (sensor_type = "accelerometer")
  then Returned ("accelerometer_data_mesgs", "calibrated_accel")
  else if decide (sensor_type = "gyroscope")
  then Returned ("gyroscope_data_mesgs", "calibrated_gyro")
  else Raised ValueError.

(** [datetime.datetime.fromtimestamp(base_timestamp_ms / 1000.0)] *)
Definition base_datetime (base_timestamp_ms : value) : outcome datetime :=
  match base_timestamp_ms with
  | VScalar (SInt n) => fromtimestamp_ms n
  | _ => Raised TypeError
  end.

(** [base_timestamp + datetime.timedelta(milliseconds=offset)] *)
Definition sample_time (base_timestamp : datetime) (offset : scalar) : outcome datetime :=
  d <- timedelta offset ;; datetime_add base_timestamp d.

(** The body of the [try] in the loop over the groups.  [Returned None] is the
    [continue] of the length test; otherwise the four lists the group adds. *)
Definition group_body (axis_prefix : string) (group : MessageRecord)
  : outcome (option (list datetime * list scalar * list scalar * list scalar)) :=
  let base_timestamp_ms := get group "timestamp_ms" (VScalar (SInt 0)) in
  let sample_offsets := get group "sample_time_offset" (VList []) in
  let x_values := get group (axis_prefix +:+ "_x") (VList []) in
  let y_values := get group (axis_prefix +:+ "_y") (VList []) in
  let z_values := get group (axis_prefix +:+ "_z") (VList []) in
  lx <- len x_values ;;
  ly <- len y_values ;;
  if negb (lx =? ly) then Returned None else
  lz <- len z_values ;;
  if negb (ly =? lz) then Returned None else
  lo <- len sample_offsets ;;
  if negb (lz =? lo) then Returned None else
  base_timestamp <- base_datetime base_timestamp_ms ;;
  offsets <- iter sample_offsets ;;
  timestamps <- comprehension (sample_time base_timestamp) offsets ;;
  xs <- iter x_values ;;
  ys <- iter y_values ;;
  zs <- iter z_values ;;
  Returned (Some (timestamps, xs, ys, zs)).

(** The lists [all_timestamps], [all_x], [all_y], [all_z]. *)
Definition no_samples : SensorFrame :=
  {| sf_timestamp := []; sf_x := []; sf_y := []; sf_z := [] |}.

Definition extend (acc : SensorFrame)
    (g : list datetime * list scalar * list scalar * list scalar) : SensorFrame :=
  let '(timestamps, xs, ys, zs) := g in
  {| sf_timestamp := sf_timestamp acc ++ timestamps;
     sf_x := sf_x acc ++ xs;
     sf_y := sf_y acc ++ ys;
     sf_z := sf_z acc ++ zs |}.

(** One iteration of [for group in sensor_messages]. *)
Definition sensor_step (axis_prefix : string) (acc : SensorFrame) (group : MessageRecord)
  : SensorFrame :=
  match group_body axis_prefix group with
  | Returned (Some g) => extend acc g
  | Returned None => acc
  | Raised _ => acc
  end.

(** [pd.DataFrame({...})] of four columns: pandas refuses columns of
    different lengths. *)
Definition DataFrame (acc : SensorFrame) : outcome SensorFrame :=
  if (length (sf_timestamp acc) =? length (sf_x acc))
     && (length (sf_x acc) =? length (sf_y acc))
     && (length (sf_y acc) =? length (sf_z acc))
  then Returned acc else Raised ValueError.

Definition _extract_sensor_data_fast (self : FastFitFileProcessor) (sensor_type : string)
  : IO (option SensorFrame) :=
  keys <~ lift (sensor_keys sensor_type) ;;
  let '(message_key, axis_prefix) := keys in
  match messages self !! message_key with
  | None =>
      print (No_sensor_data sensor_type (name (file_path self))) ;;;
      ret None
  | Some sensor_messages =>
      let acc := fold_left (sensor_step axis_prefix) sensor_messages no_samples in
      match sf_timestamp acc with
      | [] => ret None
      | _ :: _ => df <~ lift (DataFrame acc) ;; ret (Some df)
      end
  end.

(** ** Self-report interval detector: [_process_self_reports] *)

Definition set_end (timestamp : datetime) (r : SelfReport) : SelfReport :=
  {| start_timestamp := start_timestamp r;
     sr_end_timestamp := Closed timestamp;
     sr_event_type := sr_event_type r |}.

(** [df.at[df.index[-1], 'end_timestamp'] = timestamp]; [df.index[-1]] raises
    on a frame without rows. *)
Definition set_last_end (df : list SelfReport) (timestamp : datetime)
  : outcome (list SelfReport) :=
  match df with
  | [] => Raised IndexError
  | _ :: _ => Returned (alter (set_end timestamp) (length df - 1) df)
  end.

Definition _process_self_reports (timestamp : datetime) (event_type : scalar)
    (df_event_self_reports : list SelfReport) (is_event_active : bool)
    (is_event_active_Field : scalar) : outcome (list SelfReport * bool) :=
  if in_valid_event_types event_type then
    if negb is_event_active && eq_int is_event_active_Field 1 then
      Returned (df_event_self_reports ++
                  [{| start_timestamp := timestamp;
                      sr_end_timestamp := NAN;
                      sr_event_type := event_type |}],
                true)
    else if is_event_active && eq_int is_event_active_Field 0 then
      df <- set_last_end df_event_self_reports timestamp ;;
      Returned (df, false)
    else Returned (df_event_self_reports, is_event_active)
  else Returned (df_event_self_reports, is_event_active).

(** ** Record stream builder: [_extract_record_data_fast] *)

(** The local variables of the walk over the records. *)
Record walk : Type := {
  timestamps : list datetime;
  heart_rates : list value;
  developer_fields : list (option pystr);
  df_event_self_reports : list SelfReport;
  is_event_active : bool
}.

Definition walk_start : walk :=
  {| timestamps := []; heart_rates := []; developer_fields := [];
     df_event_self_reports := []; is_event_active := false |}.

(** The three branches that convert [timestamp_raw]; [int(v)] raises on
    [None], on a list and on a dict. *)
Definition to_datetime (timestamp_raw : value) : outcome datetime :=
  match timestamp_raw with
  | VScalar (SInt n) => fromtimestamp n
  | VScalar (SDate t) => Returned t
  | _ => Raised TypeError
  end.

(** The statements of the [try] up to the three [append]s. *)
Definition read_row (record : MessageRecord)
  : outcome (datetime * value * value * scalar) :=
  let timestamp_raw := get record "timestamp" (VScalar SNone) in
  timestamp <- to_datetime timestamp_raw ;;
  let heart_rate := get record "heart_rate" (VScalar SNone) in
  let dev_fields := get record "developer_fields" (VList []) in
  dev_field <- (if truthy dev_fields then getitem dev_fields 0 else Returned SNone) ;;
  Returned (timestamp, heart_rate, dev_fields, dev_field).

Definition append_row (st : walk) (timestamp : datetime) (heart_rate : value)
    (dev_field : scalar) : walk :=
  {| timestamps := timestamps st ++ [timestamp];
     heart_rates := heart_rates st ++ [heart_rate];
     developer_fields :=
       developer_fields st ++
         [match dev_field with SNone => None | _ => Some (str dev_field) end];
     df_event_self_reports := df_event_self_reports st;
     is_event_active := is_event_active st |}.

(** The statements of the [try] after the [append]s. *)
Definition detect (st : walk) (timestamp : datetime) (dev_fields : value)
  : outcome (list SelfReport * bool) :=
  is_event_active_Field <- getitem dev_fields 1 ;;
  event_type <- getitem dev_fields 2 ;;
  _process_self_reports timestamp event_type (df_event_self_reports st)
    (is_event_active st) is_event_active_Field.

Definition set_detector (st : walk) (d : list SelfReport * bool) : walk :=
  {| timestamps := timestamps st;
     heart_rates := heart_rates st;
     developer_fields := developer_fields st;
     df_event_self_reports := d.1;
     is_event_active := d.2 |}.

(** One iteration of [for record in record_messages]: an exception leaves the
    loop variables as they are at that point and goes to the next record. *)
Definition record_step (st : walk) (record : MessageRecord) : walk :=
  if decide (get record "timestamp" (VScalar SNone) = VScalar SNone) then st else
  match read_row record with
  | Raised _ => st
  | Returned (timestamp, heart_rate, dev_fields, dev_field) =>
      let st1 := append_row st timestamp heart_rate dev_field in
      match detect st1 timestamp dev_fields with
      | Raised _ => st1
      | Returned d => set_detector st1 d
      end
  end.

Definition record_walk (record_messages : list MessageRecord) : walk :=
  fold_left record_step record_messages walk_start.

(** [pd.DataFrame({...})] of the three record columns. *)
Definition RecordDataFrame (st : walk) : outcome RecordFrame :=
  if (length (timestamps st) =? length (heart_rates st))
     && (length (heart_rates st) =? length (developer_fields st))
  then Returned {| rf_timestamp := timestamps st;
                   rf_heart_rate := heart_rates st;
                   rf_developer_field := developer_fields st |}
  else Raised ValueError.

Definition _extract_record_data_fast (self : FastFitFileProcessor)
  : IO (option (RecordFrame * list SelfReport)) :=
  match messages self !! "record_mesgs" with
  | None =>
      print (No_record_messages (name (file_path self))) ;;;
      ret None
  | Some record_messages =>
      let st := record_walk record_messages in
      match timestamps st with
      | [] => ret None
      | _ :: _ =>
          df_records <~ lift (RecordDataFrame st) ;;
          ret (Some (df_records, df_event_self_reports st))
      end
  end.

(** ** File processing unit: [process_to_csv], [process_single_file] *)

(** [decode_file]: the processor with [self.messages] set when it returns
    [True], nothing when it returns [False]. *)
Definition decode_file (f : FitFile) : IO (option FastFitFileProcessor) :=
  match fit_read f with
  | Returned (msgs, errors) =>
      (match errors with
       | [] => ret tt
       | _ :: _ => print (Warning_errors_found (name (fit_path f)))
       end) ;;;
      ret (Some {| file_path := fit_path f; messages := msgs |})
  | Raised _ =>
      print (Error_decoding (name (fit_path f))) ;;;
      ret None
  end.

(** [a, b = r]: unpacking [None] raises [TypeError]. *)
Definition unpack {A B : Type} (r : option (A * B)) : outcome (option A * option B) :=
  match r with
  | Some (a, b) => Returned (Some a, Some b)
  | None => Raised TypeError
  end.

(** [if df is not None: df.to_csv(path); print(...); paths.append(path)
     else: paths.append(None)] *)
Definition save {A : Type} (df : option A) (to_table : A → table) (rows : A → nat)
    (kind path : string) : IO (option string) :=
  match df with
  | Some d =>
      to_csv (to_table d) path ;;;
      print (Wrote (rows d) kind path) ;;;
      ret (Some path)
  | None => ret None
  end.

Definition process_to_csv (f : FitFile) : IO (list (option string)) :=
  decoded <~ decode_file f ;;
  match decoded with
  | None => ret [None; None; None]
  | Some self =>
      let base_name := stem (file_path self) in
      let accel_csv_path := base_name +:+ "_accelerometer.csv" in
      let gyro_csv_path := base_name +:+ "_gyroscope.csv" in
      let record_csv_path := base_name +:+ "_records.csv" in
      let self_report_csv_path := base_name +:+ "_self_reports.csv" in
      accel_df <~ _extract_sensor_data_fast self "accelerometer" ;;
      p_accel <~ save accel_df SensorCsv (fun d => length (sf_timestamp d))
                   "accelerometer" accel_csv_path ;;
      gyro_df <~ _extract_sensor_data_fast self "gyroscope" ;;
      p_gyro <~ save gyro_df SensorCsv (fun d => length (sf_timestamp d))
                  "gyroscope" gyro_csv_path ;;
      r <~ _extract_record_data_fast self ;;
      dfs <~ lift (unpack r) ;;
      let '(record_df, self_report_event_df) := dfs in
      p_record <~ save record_df RecordCsv (fun d => length (rf_timestamp d))
                    "record" record_csv_path ;;
      p_self <~ save self_report_event_df SelfReportCsv (fun d => length d)
                  "self report" self_report_csv_path ;;
      print (Processing_time (name (file_path self))) ;;;
      ret [p_accel; p_gyro; p_record; p_self]
  end.

Definition process_single_file (fit_file : FitFile) : IO (Path * bool) :=
  results <~ process_to_csv fit_file ;;
  let success := existsb (fun path => bool_decide (path ≠ None)) results in
  ret (fit_path fit_file, success).

(** ** Batch orchestrator: [process_all_files] *)

(** The [else] branch: files one after the other, no [try]. *)
Fixpoint sequential (fit_files : list FitFile) (success_count : nat) : IO nat :=
  match fit_files with
  | [] => ret success_count
  | fit_file :: rest =>
      print (Processing (name (fit_path fit_file))) ;;;
      r <~ process_single_file fit_file ;;
      sequential rest (if r.2 then S success_count else success_count)
  end.

(** The loop over [as_completed(future_to_file)]: [future.result()] returns
    what the worker returned or raises what it raised, inside
    [try ... except Exception].  A worker's effects are taken at once, when
    its future is collected; for workers that write to the same path the
    pool fixes no order of the writes, and this function picks one. *)
Fixpoint collect (completed : list FitFile) (success_count : nat) : IO nat :=
  match completed with
  | [] => ret success_count
  | fit_file :: rest => fun w =>
      match process_single_file fit_file w with
      | (Returned r, w') =>
          collect rest (if r.2 then S success_count else success_count) w'
      | (Raised e, w') =>
          (print (Error_processing (name (fit_path fit_file)) e) ;;;
           collect rest success_count) w'
      end
  end.

(** [fit_files] is what [find_fit_files] found; [as_completed] is the order in
    which the pool hands the futures back. *)
Definition process_all_files (as_completed : list FitFile → list FitFile)
    (fit_files : list FitFile) (use_multiprocessing : bool) : IO unit :=
  match fit_files with
  | [] => print No_fit_files
  | _ :: _ =>
      print (Found_files (length fit_files)) ;;;
      print (Multiprocessing use_multiprocessing) ;;;
      success_count <~
        (if use_multiprocessing && (1 <? length fit_files)
         then collect (as_completed fit_files) 0
         else sequential fit_files 0) ;;
      print Total_and_average_time ;;;
      print (Successfully_processed success_count (length fit_files))
  end.

End Extraction.

(** ** Views used by the statements *)

(** One row of a sensor table. *)
Record SensorSampleRow : Type := {
  row_timestamp : datetime;
  row_x : scalar;
  row_y : scalar;
  row_z : scalar
}.

Fixpoint zip_rows (ts : list datetime) (xs ys zs : list scalar) : list SensorSampleRow :=
  match ts, xs, ys, zs with
  | t :: ts', x :: xs', y :: ys', z :: zs' =>
      {| row_timestamp := t; row_x := x; row_y := y; row_z := z |}
        :: zip_rows ts' xs' ys' zs'
  | _, _, _, _ => []
  end.

Definition rows (df : SensorFrame) : list SensorSampleRow :=
  zip_rows (sf_timestamp df) (sf_x df) (sf_y df) (sf_z df).

(** The four columns have one length. *)
Definition aligned (df : SensorFrame) : Prop :=
  length (sf_x df) = length (sf_timestamp df)
  ∧ length (sf_y df) = length (sf_timestamp df)
  ∧ length (sf_z df) = length (sf_timestamp df).

(** The rows of the table an extraction returned; none for "no data". *)
Definition table_rows (r : outcome (option SensorFrame) * world) : list SensorSampleRow :=
  match r.1 with
  | Returned (Some df) => rows df
  | _ => []
  end.

(** [base + timedelta(milliseconds=offset)] is defined: the offset is a legal
    [timedelta] and the sum is a legal [datetime]. *)
Definition offset_ok (base_timestamp : datetime) (offset : Z) : Prop :=
  (Z.abs ((offset * 1000) `div` US_PER_DAY) ≤ 999999999
   ∧ 0 ≤ base_timestamp + offset * 1000 < DATETIME_END)%Z.

(** The four sequences of a group, read as the expander reads them, have
    one length. *)
Definition lengths_agree (axis_prefix : string) (group : MessageRecord) : Prop :=
  ∃ k : nat,
    len (get group (axis_prefix +:+ "_x") (VList [])) = Returned k
    ∧ len (get group (axis_prefix +:+ "_y") (VList [])) = Returned k
    ∧ len (get group (axis_prefix +:+ "_z") (VList [])) = Returned k
    ∧ len (get group "sample_time_offset" (VList [])) = Returned k.

(** The processor [self] with [groups] as its messages of type [key]. *)
Definition with_messages (self : FastFitFileProcessor) (key : string)
    (groups : list MessageRecord) : FastFitFileProcessor :=
  {| file_path := file_path self; messages := <[key := groups]> (messages self) |}.

(** The number of intervals of a self-report table that are still open. *)
Definition is_open (r : SelfReport) : bool :=
  match sr_end_timestamp r with
  | NAN => true
  | Closed _ => false
  end.

Definition open_count (df : list SelfReport) : nat := length (List.filter is_open df).

(** The detector flag and the table agree: while active the last interval is
    the only open one, otherwise none is open. *)
Definition detector_inv (df : list SelfReport) (active : bool) : Prop :=
  if active
  then ∃ earlier opened,
         df = earlier ++ [opened] ∧ sr_end_timestamp opened = NAN ∧ open_count earlier = 0
  else open_count df = 0.

(** ** Concrete inputs *)

Definition empty_world : world := {| disk := ∅; stdout := [] |}.

Definition walk_fit : Path := {| stem := "walk"; suffix := ".fit" |}.

Definition run_fit : Path := {| stem := "run"; suffix := ".fit" |}.

(** An accelerometer group of two samples. *)
Definition two_samples : MessageRecord :=
  {[ "timestamp_ms" := VScalar (SInt 1000);
     "sample_time_offset" := VList [SInt 0; SInt 10];
     "calibrated_accel_x" := VList [SInt 1; SInt 2];
     "calibrated_accel_y" := VList [SInt 3; SInt 4];
     "calibrated_accel_z" := VList [SInt 5; SInt 6] ]}.

(** The same group without its base timestamp. *)
Definition two_samples_no_base : MessageRecord := delete "timestamp_ms" two_samples.

(** A group whose x sequence is one value short. *)
Definition ragged : MessageRecord :=
  <["calibrated_accel_x" := VList [SInt 1]]> two_samples.

(** A record with a heart rate and the three developer fields. *)
Definition record_at (t active_field event_type : Z) : MessageRecord :=
  {[ "timestamp" := VScalar (SDate t);
     "heart_rate" := VScalar (SInt 60);
     "developer_fields" := VList [SInt 7; SInt active_field; SInt event_type] ]}.

(** A record with the primary developer field only. *)
Definition record_plain (t : Z) : MessageRecord :=
  {[ "timestamp" := VScalar (SDate t);
     "heart_rate" := VScalar (SInt 61);
     "developer_fields" := VList [SInt 8] ]}.

(** A record as the decoder gives it: the developer fields are a dict keyed
    by the number of the field. *)
Definition record_dict (t active_field event_type : Z) : MessageRecord :=
  {[ "timestamp" := VScalar (SDate t);
     "heart_rate" := VScalar (SInt 60);
     "developer_fields" :=
       VDict [(0, SInt 7); (1, SInt active_field); (2, SInt event_type)]%Z ]}.

(** A record with the primary developer field only. *)
Definition record_primary_only (t : Z) : MessageRecord :=
  {[ "timestamp" := VScalar (SDate t);
     "heart_rate" := VScalar (SInt 61);
     "developer_fields" := VDict [(0, SInt 8)]%Z ]}.

(** A record with one developer field, which is none of the three the walk
    reads. *)
Definition record_other_field_only (t : Z) : MessageRecord :=
  {[ "timestamp" := VScalar (SDate t);
     "heart_rate" := VScalar (SInt 62);
     "developer_fields" := VDict [(3, SInt 9)]%Z ]}.

(** A record without developer fields whose timestamp is a number of seconds
    beyond the last year of [datetime]. *)
Definition record_far_future : MessageRecord :=
  {[ "timestamp" := VScalar (SInt (10 ^ 18));
     "heart_rate" := VScalar (SInt 63) ]}.

(** A record without timestamp. *)
Definition record_undated : MessageRecord :=
  {[ "heart_rate" := VScalar (SInt 64);
     "developer_fields" := VDict [(0, SInt 8)]%Z ]}.

Definition accel_processor (groups : list MessageRecord) : FastFitFileProcessor :=
  {| file_path := walk_fit;
     messages := {[ "accelerometer_data_mesgs" := groups ]} |}.

Definition no_sensor_processor : FastFitFileProcessor :=
  {| file_path := walk_fit; messages := ∅ |}.

Definition record_processor (records : list MessageRecord) : FastFitFileProcessor :=
  {| file_path := walk_fit; messages := {[ "record_mesgs" := records ]} |}.

(** A file with accelerometer data and no record message type. *)
Definition sensor_only_file : FitFile :=
  {| fit_path := walk_fit;
     fit_read := Returned ({[ "accelerometer_data_mesgs" := [two_samples] ]}, []) |}.

(** A file with accelerometer data and records. *)
Definition complete_file : FitFile :=
  {| fit_path := run_fit;
     fit_read :=
       Returned ({[ "accelerometer_data_mesgs" := [two_samples];
                    "record_mesgs" := [record_at 10 1 1; record_at 20 0 1] ]}, []) |}.

(** ** Effects of a unit *)

(** The four paths a unit can write. *)
Definition unit_paths (fit_file : FitFile) : gset string :=
  let base_name := stem (fit_path fit_file) in
  {[ base_name +:+ "_accelerometer.csv"; base_name +:+ "_gyroscope.csv";
     base_name +:+ "_records.csv"; base_name +:+ "_self_reports.csv" ]}.

(** An action that has, on every world, the same outcome, writes the same
    files, all of them in [paths], and prints the same lines. *)
Definition writes_only {A : Type} (paths : gset string) (m : IO A) : Prop :=
  ∃ (o : outcome A) (d : gmap string table) (out : list line),
    dom d ⊆ paths
    ∧ ∀ w, m w = (o, {| disk := d ∪ disk w; stdout := stdout w ++ out |}).


(** ** File names: [find_fit_files] *)

(** [s.endswith(suffix)] *)
Definition endswith (s suffix : string) : bool :=
  (String.length suffix <=? String.length s)
  && String.eqb
       (String.substring (String.length s - String.length suffix)
          (String.length suffix) s)
       suffix.

(** [find_fit_files]: [listing] is the content of the input directory in the
    order in which [glob] reads it, on a file system that tells upper case
    from lower case; [glob("*.fit")] keeps the names that end in [.fit]. *)
Definition find_fit_files (listing : list FitFile) : list FitFile :=
  List.filter (λ f, endswith (name (fit_path f)) ".fit") listing
  ++ List.filter (λ f, endswith (name (fit_path f)) ".FIT") listing.

(** ** [check_same_device.py] *)

(** The exceptions of [extract_id]: a missing key, an empty list of
    [file_id] messages, or whatever the decoder raised. *)
Inductive id_error : Type :=
| KeyError (key : string)
| No_file_id_message
| Decoder_raised (e : exn).

(** [extract_id(file_path)], given what the decoder does with the file. *)
Definition extract_id (read : outcome (MessageTable * list string)) : id_error + value :=
  match read with
  | Raised e => inl (Decoder_raised e)
  | Returned (messages, _) =>
      match messages !! "file_id_mesgs" with
      | None => inl (KeyError "file_id_mesgs")
      | Some [] => inl No_file_id_message
      | Some (file_id :: _) =>
          match file_id !! "serial_number" with
          | None => inl (KeyError "serial_number")
          | Some serial_number => inr serial_number
          end
      end
  end.

(** A line [[MISMATCH] File ... has ID ..., expected ... in folder ...]. *)
Inductive report : Type :=
| MISMATCH (file : string) (file_id expected : value) (folder : string).

(** The state of the loop of [check_sub_dir]: [first_file_unit_id] ([None]
    stands for the string ['N/A']), the lines printed, and the exception that
    ended the loop, if any. *)
Record check_state : Type := {
  first_file_unit_id : option value;
  printed : list report;
  raised : option id_error
}.

(** The loop over [sorted(os.listdir(sub_dir_path))]; [files] is that sorted
    listing, each name with what the decoder does with the file.  The
    progress bar that wraps the listing prints no line of its own here. *)
Fixpoint check_files (sub_dir_path : string)
    (files : list (string * outcome (MessageTable * list string)))
    (first : option value) (out : list report) : check_state :=
  match files with
  | [] => {| first_file_unit_id := first; printed := out; raised := None |}
  | (file, read) :: rest =>
      if negb (endswith file ".fit") then check_files sub_dir_path rest first out
      else
        match extract_id read with
        | inl e => {| first_file_unit_id := first; printed := out; raised := Some e |}
        | inr file_id =>
            match first with
            | None => check_files sub_dir_path rest (Some file_id) out
            | Some expected =>
                if decide (expected ≠ file_id)
                then check_files sub_dir_path rest first
                       (out ++ [MISMATCH file file_id expected sub_dir_path])
                else check_files sub_dir_path rest first out
            end
        end
  end.

Definition check_sub_dir (sub_dir_path : string)
    (files : list (string * outcome (MessageTable * list string))) : check_state :=
  check_files sub_dir_path files None [].

(** The [.fit] files of a listing with their serial numbers. *)
Definition fit_ids (files : list (string * outcome (MessageTable * list string)))
  : list (string * value) :=
  omap (λ entry,
          if endswith entry.1 ".fit"
          then match extract_id entry.2 with
               | inr serial_number => Some (entry.1, serial_number)
               | inl _ => None
               end
          else None) files.

(** The lines to print once the reference serial number is known. *)
Definition mismatches (sub_dir_path : string) (expected : value)
    (ids : list (string * value)) : list report :=
  (λ entry, MISMATCH entry.1 entry.2 expected sub_dir_path)
    <$> List.filter (λ entry, bool_decide (expected ≠ entry.2)) ids.


(** A second file with accelerometer data and records. *)
Definition swim_fit : Path := {| stem := "swim"; suffix := ".FIT" |}.

Definition second_file : FitFile :=
  {| fit_path := swim_fit;
     fit_read :=
       Returned ({[ "accelerometer_data_mesgs" := [two_samples];
                    "record_mesgs" := [record_plain 30] ]}, []) |}.

(** A world with one file that no unit writes. *)
Definition busy_world : world :=
  {| disk := {[ "notes.csv" := SelfReportCsv [] ]}; stdout := [] |}.

(** What the decoder returns for a file of the device with this serial
    number. *)
Definition device_file (serial_number : Z) : outcome (MessageTable * list string) :=
  Returned ({[ "file_id_mesgs" := [ {[ "serial_number" := VScalar (SInt serial_number) ]} ] ]},
            []).


Section Properties.
Context {clock : Clock}.

(** The detector part and the three columns of the walk. *)
Definition detector (st : walk) : list SelfReport * bool :=
  (df_event_self_reports st, is_event_active st).

Definition columns (st : walk) : list datetime * list value * list (option pystr) :=
  (timestamps st, heart_rates st, developer_fields st).

Definition columns_app (c c' : list datetime * list value * list (option pystr))
  : list datetime * list value * list (option pystr) :=
  (c.1.1 ++ c'.1.1, c.1.2 ++ c'.1.2, c.2 ++ c'.2).

(** The row a record gives to the record table, if it gives one: the record
    needs a timestamp that converts and developer fields that are empty or
    hold the entry 0. *)
Definition record_row (record : MessageRecord)
  : option (datetime * value * option pystr) :=
  match to_datetime (get record "timestamp" (VScalar SNone)) with
  | Raised _ => None
  | Returned timestamp =>
      let heart_rate := get record "heart_rate" (VScalar SNone) in
      let dev_fields := get record "developer_fields" (VList []) in
      if truthy dev_fields then
        match getitem dev_fields 0 with
        | Returned SNone => Some (timestamp, heart_rate, None)
        | Returned primary => Some (timestamp, heart_rate, Some (str primary))
        | Raised _ => None
        end
      else Some (timestamp, heart_rate, None)
  end.

(** The outcome of the unit of a file, the files it writes and the lines it
    prints, taken from its run on the empty world. *)
Definition unit_result (fit_file : FitFile) : outcome (Path * bool) :=
  (process_single_file fit_file empty_world).1.

Definition unit_writes (fit_file : FitFile) : gmap string table :=
  disk (process_single_file fit_file empty_world).2.

Definition unit_output (fit_file : FitFile) : list line :=
  stdout (process_single_file fit_file empty_world).2.

(** The unit of the file returns the flag [True]. *)
Definition succeeded (fit_file : FitFile) : bool :=
  match unit_result fit_file with
  | Returned (_, true) => true
  | _ => false
  end.

(** The disk after the units of [fit_files] have run one after the other. *)
Fixpoint batch_disk (fit_files : list FitFile) (d : gmap string table)
  : gmap string table :=
  match fit_files with
  | [] => d
  | fit_file :: rest => batch_disk rest (unit_writes fit_file ∪ d)
  end.


(** ** The sample-group expander *)

(** What one group adds to the four lists. *)
Definition group_columns (axis_prefix : string) (group : MessageRecord) : SensorFrame :=
  match group_body axis_prefix group with
  | Returned (Some (ts, xs, ys, zs)) =>
      {| sf_timestamp := ts; sf_x := xs; sf_y := ys; sf_z := zs |}
  | _ => no_samples
  end.

Definition group_rows (axis_prefix : string) (group : MessageRecord) : list SensorSampleRow :=
  rows (group_columns axis_prefix group).

Lemma comprehension_length {A B : Type} (f : A → outcome B) (l : list A) (l' : list B) :
  comprehension f l = Returned l' → length l' = length l.
Proof.
  revert l'. induction l as [|a l IH]; intros l' E; simpl in E.
  - by inversion E.
  - destruct (f a) as [b|]; simpl in E; [|discriminate].
    destruct (comprehension f l) as [bs|]; simpl in E; [|discriminate].
    inversion E; subst. simpl. f_equal. by apply IH.
Qed.

(** A value that has a length can be iterated over, and gives as many
    elements. *)
Lemma len_iter v n :
  len v = Returned n → ∃ l, iter v = Returned l ∧ length l = n.
Proof.
  destruct v as [?|l|items]; intros [= <-]; eexists; (split; [done|]);
    by rewrite ?length_fmap.
Qed.

(** What a group that adds rows looks like: its four fields can be iterated
    over, give as many elements each, and the lists added are the times of
    the offsets and the elements of the three others. *)
Lemma group_body_inv axis_prefix group ts xs ys zs :
  group_body axis_prefix group = Returned (Some (ts, xs, ys, zs)) →
  ∃ offsets n,
    iter (get group "sample_time_offset" (VList [])) = Returned offsets
    ∧ iter (get group (axis_prefix +:+ "_x") (VList [])) = Returned xs
    ∧ iter (get group (axis_prefix +:+ "_y") (VList [])) = Returned ys
    ∧ iter (get group (axis_prefix +:+ "_z") (VList [])) = Returned zs
    ∧ len (get group "sample_time_offset" (VList [])) = Returned n
    ∧ len (get group (axis_prefix +:+ "_x") (VList [])) = Returned n
    ∧ len (get group (axis_prefix +:+ "_y") (VList [])) = Returned n
    ∧ len (get group (axis_prefix +:+ "_z") (VList [])) = Returned n
    ∧ length offsets = n ∧ length ts = n
    ∧ length xs = n ∧ length ys = n ∧ length zs = n.
Proof.
  unfold group_body. cbv zeta.
  destruct (len (get group (axis_prefix +:+ "_x") _)) as [lx|] eqn:Ex; [|discriminate].
  destruct (len (get group (axis_prefix +:+ "_y") _)) as [ly|] eqn:Ey; [|discriminate].
  cbn [bind]. destruct (Nat.eqb_spec lx ly) as [<-|]; [|discriminate]. cbn [negb].
  destruct (len (get group (axis_prefix +:+ "_z") _)) as [lz|] eqn:Ez; [|discriminate].
  cbn [bind]. destruct (Nat.eqb_spec lx lz) as [<-|]; [|discriminate]. cbn [negb].
  destruct (len (get group "sample_time_offset" _)) as [lo|] eqn:Eo; [|discriminate].
  cbn [bind]. destruct (Nat.eqb_spec lx lo) as [<-|]; [|discriminate]. cbn [negb].
  destruct (base_datetime _) as [t0|]; [|discriminate]. cbn [bind].
  apply len_iter in Ex as Ix. destruct Ix as (xs' & Ix & Lx).
  apply len_iter in Ey as Iy. destruct Iy as (ys' & Iy & Ly).
  apply len_iter in Ez as Iz. destruct Iz as (zs' & Iz & Lz).
  apply len_iter in Eo as Io. destruct Io as (offsets & Io & Lo).
  rewrite Io. cbn [bind].
  destruct (comprehension _ offsets) as [ts'|] eqn:Ec; [|discriminate]. cbn [bind].
  rewrite Ix, Iy, Iz. cbn [bind]. intros [= <- <- <- <-].
  apply comprehension_length in Ec.
  exists offsets, lx. repeat split; try done. congruence.
Qed.

Lemma group_body_aligned axis_prefix group ts xs ys zs :
  group_body axis_prefix group = Returned (Some (ts, xs, ys, zs)) →
  aligned {| sf_timestamp := ts; sf_x := xs; sf_y := ys; sf_z := zs |}.
Proof.
  intros (offsets & n & _ & _ & _ & _ & _ & _ & _ & _ & _ & Lt & Lx & Ly & Lz)%group_body_inv.
  unfold aligned. simpl. lia.
Qed.

Lemma group_columns_aligned axis_prefix group : aligned (group_columns axis_prefix group).
Proof.
  unfold group_columns.
  destruct (group_body axis_prefix group) as [[[[[ts xs] ys] zs]|]|] eqn:E;
    try (by repeat split).
  by apply group_body_aligned in E.
Qed.

Lemma zip_rows_length ts xs ys zs :
  length xs = length ts → length ys = length ts → length zs = length ts →
  length (zip_rows ts xs ys zs) = length ts.
Proof.
  revert xs ys zs. induction ts as [|t ts IH]; intros [|x xs] [|y ys] [|z zs];
    simpl; intros; try done.
  f_equal. apply IH; lia.
Qed.

Lemma zip_rows_app ts xs ys zs ts' xs' ys' zs' :
  length xs = length ts → length ys = length ts → length zs = length ts →
  zip_rows (ts ++ ts') (xs ++ xs') (ys ++ ys') (zs ++ zs')
  = zip_rows ts xs ys zs ++ zip_rows ts' xs' ys' zs'.
Proof.
  revert xs ys zs. induction ts as [|t ts IH]; intros [|x xs] [|y ys] [|z zs];
    simpl; intros; try done.
  f_equal. apply IH; lia.
Qed.

Lemma zip_rows_lookup ts xs ys zs i t x y z :
  ts !! i = Some t → xs !! i = Some x → ys !! i = Some y → zs !! i = Some z →
  zip_rows ts xs ys zs !! i
  = Some {| row_timestamp := t; row_x := x; row_y := y; row_z := z |}.
Proof.
  revert xs ys zs i. induction ts as [|t' ts IH]; intros [|x' xs] [|y' ys] [|z' zs] [|i];
    simpl; intros; simplify_eq; try done.
  by apply IH.
Qed.

Lemma rows_length df : aligned df → length (rows df) = length (sf_timestamp df).
Proof. intros (?&?&?). by apply zip_rows_length. Qed.

Lemma extend_aligned acc ts xs ys zs :
  aligned acc →
  aligned {| sf_timestamp := ts; sf_x := xs; sf_y := ys; sf_z := zs |} →
  aligned (extend acc (ts, xs, ys, zs)).
Proof.
  unfold aligned. simpl. intros (?&?&?) (?&?&?). rewrite !length_app. lia.
Qed.

Lemma rows_extend acc ts xs ys zs :
  aligned acc →
  rows (extend acc (ts, xs, ys, zs)) = rows acc ++ zip_rows ts xs ys zs.
Proof. intros (?&?&?). unfold rows. simpl. by apply zip_rows_app. Qed.

(** One iteration adds the rows of its group after those already there. *)
Lemma sensor_step_rows axis_prefix acc group :
  aligned acc →
  aligned (sensor_step axis_prefix acc group)
  ∧ rows (sensor_step axis_prefix acc group) = rows acc ++ group_rows axis_prefix group.
Proof.
  intros Ha. unfold sensor_step, group_rows, group_columns.
  destruct (group_body axis_prefix group) as [[[[[ts xs] ys] zs]|]|] eqn:E.
  - split; [|by apply rows_extend].
    apply extend_aligned; [done|]. by eapply group_body_aligned.
  - split; [done|]. by rewrite app_nil_r.
  - split; [done|]. by rewrite app_nil_r.
Qed.

Lemma sensor_loop_rows axis_prefix groups acc :
  aligned acc →
  aligned (fold_left (sensor_step axis_prefix) groups acc)
  ∧ rows (fold_left (sensor_step axis_prefix) groups acc)
    = rows acc ++ concat (map (group_rows axis_prefix) groups).
Proof.
  revert acc. induction groups as [|g groups IH]; intros acc Ha; simpl.
  - split; [done|]. by rewrite app_nil_r.
  - destruct (sensor_step_rows axis_prefix acc g Ha) as [Ha' Hr].
    destruct (IH _ Ha') as [Hf Hrows]. split; [done|].
    by rewrite Hrows, Hr, app_assoc.
Qed.

Lemma DataFrame_aligned acc : aligned acc → DataFrame acc = Returned acc.
Proof.
  intros (Hx&Hy&Hz). unfold DataFrame.
  rewrite Hx, Hy, Hz, !Nat.eqb_refl. done.
Qed.

Lemma no_samples_aligned : aligned no_samples.
Proof. by repeat split. Qed.

(** The result of the expander when the message type is present: the
    accumulated table, unless it has no row. *)
Lemma extract_present self sensor_type message_key axis_prefix groups w :
  sensor_keys sensor_type = Returned (message_key, axis_prefix) →
  messages self !! message_key = Some groups →
  let acc := fold_left (sensor_step axis_prefix) groups no_samples in
  rows acc = concat (map (group_rows axis_prefix) groups)
  ∧ _extract_sensor_data_fast self sensor_type w
    = (Returned (match rows acc with [] => None | _ :: _ => Some acc end), w).
Proof.
  intros Hk Hm acc.
  destruct (sensor_loop_rows axis_prefix groups no_samples no_samples_aligned)
    as [Ha Hr].
  fold acc in Ha, Hr. split; [done|].
  unfold _extract_sensor_data_fast, iobind, lift, ret. rewrite Hk, Hm. fold acc.
  pose proof (rows_length acc Ha) as Hl.
  destruct (sf_timestamp acc) as [|t ts] eqn:Et.
  - destruct (rows acc); [done|discriminate].
  - rewrite (DataFrame_aligned acc Ha).
    destruct (rows acc); [discriminate|done].
Qed.

Lemma table_rows_present self sensor_type message_key axis_prefix groups w :
  sensor_keys sensor_type = Returned (message_key, axis_prefix) →
  messages self !! message_key = Some groups →
  table_rows (_extract_sensor_data_fast self sensor_type w)
  = concat (map (group_rows axis_prefix) groups).
Proof.
  intros Hk Hm.
  destruct (extract_present self sensor_type _ _ groups w Hk Hm) as [Hr ->].
  unfold table_rows. simpl. rewrite <- Hr.
  destruct (rows _) eqn:E; simpl; congruence.
Qed.

Lemma get_present (d : gmap string value) key dflt v :
  d !! key = Some v → get d key dflt = v.
Proof. intros E. unfold get. by rewrite E. Qed.

Lemma get_absent (d : gmap string value) key dflt :
  d !! key = None → get d key dflt = dflt.
Proof. intros E. unfold get. by rewrite E. Qed.

Lemma comprehension_sample_time t0 offsets :
  Forall (offset_ok t0) offsets →
  comprehension (sample_time t0) (SInt <$> offsets)
  = Returned ((λ o, t0 + o * 1000)%Z <$> offsets).
Proof.
  induction 1 as [|o offsets [Hd [Hlo Hhi]] _ IH]; [done|].
  rewrite !fmap_cons. cbn [comprehension]. rewrite IH.
  unfold sample_time, timedelta, datetime_add. cbn [bind].
  rewrite (proj2 (Z.leb_le _ _) Hd). cbn [bind].
  rewrite (proj2 (Z.leb_le _ _) Hlo), (proj2 (Z.ltb_lt _ _) Hhi). done.
Qed.

(** A well-formed group whose conversions succeed adds one row per offset. *)
Lemma group_body_valid axis_prefix group base t0 offsets xs ys zs :
  get group "timestamp_ms" (VScalar (SInt 0)) = VScalar (SInt base) →
  group !! "sample_time_offset" = Some (VList (SInt <$> offsets)) →
  group !! (axis_prefix +:+ "_x") = Some (VList xs) →
  group !! (axis_prefix +:+ "_y") = Some (VList ys) →
  group !! (axis_prefix +:+ "_z") = Some (VList zs) →
  length xs = length offsets → length ys = length offsets → length zs = length offsets →
  fromtimestamp_ms base = Returned t0 →
  Forall (offset_ok t0) offsets →
  group_body axis_prefix group
  = Returned (Some ((λ o, t0 + o * 1000)%Z <$> offsets, xs, ys, zs)).
Proof.
  intros Hb Ho Hx Hy Hz Lx Ly Lz Ht Hok.
  pose proof (get_present _ _ (VList []) _ Ho) as Ho'.
  pose proof (get_present _ _ (VList []) _ Hx) as Hx'.
  pose proof (get_present _ _ (VList []) _ Hy) as Hy'.
  pose proof (get_present _ _ (VList []) _ Hz) as Hz'.
  unfold group_body. cbv zeta. rewrite Hb, Ho', Hx', Hy', Hz'. cbn [len bind iter].
  rewrite length_fmap, Lx, Ly, Lz, Nat.eqb_refl. cbn [negb base_datetime].
  rewrite Ht. cbn [bind]. by rewrite comprehension_sample_time.
Qed.

Lemma group_rows_valid axis_prefix group base t0 offsets xs ys zs :
  get group "timestamp_ms" (VScalar (SInt 0)) = VScalar (SInt base) →
  group !! "sample_time_offset" = Some (VList (SInt <$> offsets)) →
  group !! (axis_prefix +:+ "_x") = Some (VList xs) →
  group !! (axis_prefix +:+ "_y") = Some (VList ys) →
  group !! (axis_prefix +:+ "_z") = Some (VList zs) →
  length xs = length offsets → length ys = length offsets → length zs = length offsets →
  fromtimestamp_ms base = Returned t0 →
  Forall (offset_ok t0) offsets →
  length (group_rows axis_prefix group) = length offsets
  ∧ ∀ i o x y z,
      offsets !! i = Some o → xs !! i = Some x → ys !! i = Some y → zs !! i = Some z →
      group_rows axis_prefix group !! i
      = Some {| row_timestamp := (t0 + o * 1000)%Z; row_x := x; row_y := y; row_z := z |}.
Proof.
  intros Hb Ho Hx Hy Hz Lx Ly Lz Ht Hok.
  unfold group_rows, group_columns.
  rewrite (group_body_valid _ _ _ _ _ _ _ _ Hb Ho Hx Hy Hz Lx Ly Lz Ht Hok).
  unfold rows. simpl. split.
  - rewrite zip_rows_length; rewrite ?length_fmap; done.
  - intros i o x y z Hi Hxi Hyi Hzi. apply zip_rows_lookup; try done.
    by rewrite list_lookup_fmap, Hi.
Qed.

(** The rows of a table are those of the groups before a given group, then
    the rows of that group, then those of the groups after it. *)
Lemma table_rows_split self sensor_type message_key axis_prefix pre group post w :
  sensor_keys sensor_type = Returned (message_key, axis_prefix) →
  messages self !! message_key = Some (pre ++ group :: post) →
  table_rows (_extract_sensor_data_fast self sensor_type w)
  = table_rows (_extract_sensor_data_fast (with_messages self message_key pre) sensor_type w)
    ++ group_rows axis_prefix group
    ++ table_rows (_extract_sensor_data_fast (with_messages self message_key post) sensor_type w).
Proof.
  intros Hk Hm.
  rewrite (table_rows_present self _ _ _ _ w Hk Hm).
  rewrite (table_rows_present (with_messages self message_key pre) _ _ _ pre w Hk)
    by apply lookup_insert_eq.
  rewrite (table_rows_present (with_messages self message_key post) _ _ _ post w Hk)
    by apply lookup_insert_eq.
  by rewrite map_app, concat_app.
Qed.

(** C6: a valid group of k samples (offsets, x, y and z of length k, a base
    timestamp and offsets that convert) yields exactly k rows; row i has the
    timestamp base + offset[i] and the values x[i], y[i], z[i]; the rows stand
    after those of the groups met before and before those of the groups met
    after, in the order of the sequence. *)
Theorem expander_valid_group self sensor_type message_key axis_prefix
    pre group post base t0 offsets xs ys zs w :
  sensor_keys sensor_type = Returned (message_key, axis_prefix) →
  messages self !! message_key = Some (pre ++ group :: post) →
  group !! "timestamp_ms" = Some (VScalar (SInt base)) →
  group !! "sample_time_offset" = Some (VList (SInt <$> offsets)) →
  group !! (axis_prefix +:+ "_x") = Some (VList xs) →
  group !! (axis_prefix +:+ "_y") = Some (VList ys) →
  group !! (axis_prefix +:+ "_z") = Some (VList zs) →
  length xs = length offsets → length ys = length offsets → length zs = length offsets →
  fromtimestamp_ms base = Returned t0 →
  Forall (offset_ok t0) offsets →
  ∃ emitted : list SensorSampleRow,
    table_rows (_extract_sensor_data_fast self sensor_type w)
    = table_rows (_extract_sensor_data_fast (with_messages self message_key pre) sensor_type w)
      ++ emitted
      ++ table_rows (_extract_sensor_data_fast (with_messages self message_key post) sensor_type w)
    ∧ length emitted = length offsets
    ∧ ∀ i o x y z,
        offsets !! i = Some o → xs !! i = Some x → ys !! i = Some y → zs !! i = Some z →
        emitted !! i
        = Some {| row_timestamp := (t0 + o * 1000)%Z; row_x := x; row_y := y; row_z := z |}.
Proof.
  intros Hk Hm Hb Ho Hx Hy Hz Lx Ly Lz Ht Hok.
  exists (group_rows axis_prefix group). split.
  - by apply table_rows_split.
  - apply (group_rows_valid _ _ base); try done.
    by apply get_present.
Qed.

Lemma group_body_lengths_agree axis_prefix group g :
  group_body axis_prefix group = Returned (Some g) → lengths_agree axis_prefix group.
Proof.
  destruct g as [[[ts xs] ys] zs].
  intros (offsets & n & _ & _ & _ & _ & Ho & Hx & Hy & Hz & _)%group_body_inv.
  by exists n.
Qed.

Lemma sensor_step_mismatch axis_prefix acc group :
  ¬ lengths_agree axis_prefix group →
  group_rows axis_prefix group = [] ∧ sensor_step axis_prefix acc group = acc.
Proof.
  intros Hno. unfold group_rows, group_columns, sensor_step.
  destruct (group_body axis_prefix group) as [[g|]|] eqn:E; try done.
  destruct Hno. by eapply group_body_lengths_agree.
Qed.

(** C7: a group whose offsets, x, y and z do not all have one length adds no
    row, and the expander returns exactly what it returns on the sequence
    without that group: the groups after it are still read and nothing of the
    group is used. *)
Theorem mismatched_group_dropped self sensor_type message_key axis_prefix
    pre group post w :
  sensor_keys sensor_type = Returned (message_key, axis_prefix) →
  messages self !! message_key = Some (pre ++ group :: post) →
  ¬ lengths_agree axis_prefix group →
  group_rows axis_prefix group = []
  ∧ _extract_sensor_data_fast self sensor_type w
    = _extract_sensor_data_fast
        (with_messages self message_key (pre ++ post)) sensor_type w.
Proof.
  intros Hk Hm Hno.
  split; [exact (proj1 (sensor_step_mismatch axis_prefix no_samples group Hno))|].
  destruct (extract_present self sensor_type _ _ _ w Hk Hm) as [_ ->].
  destruct (extract_present (with_messages self message_key (pre ++ post))
              sensor_type _ _ (pre ++ post) w Hk) as [_ ->];
    [apply lookup_insert_eq|].
  rewrite !fold_left_app. cbn [fold_left].
  by rewrite (proj2 (sensor_step_mismatch axis_prefix _ group Hno)).
Qed.

Lemma sensor_keys_inv sensor_type message_key axis_prefix :
  sensor_keys sensor_type = Returned (message_key, axis_prefix) →
  axis_prefix = "calibrated_accel" ∨ axis_prefix = "calibrated_gyro".
Proof.
  unfold sensor_keys. repeat case_decide; intros E; simplify_eq; auto.
Qed.

(** C10: a group without a [timestamp_ms] field is not skipped.  It is read
    as the same group with [timestamp_ms] set to 0, and when its four sequences
    have one length its rows are emitted with the timestamps epoch + offset[i],
    the epoch being the date of timestamp 0. *)
Theorem absent_base_timestamp self sensor_type message_key axis_prefix
    pre group post epoch offsets xs ys zs w :
  sensor_keys sensor_type = Returned (message_key, axis_prefix) →
  messages self !! message_key = Some (pre ++ group :: post) →
  group !! "timestamp_ms" = None →
  group !! "sample_time_offset" = Some (VList (SInt <$> offsets)) →
  group !! (axis_prefix +:+ "_x") = Some (VList xs) →
  group !! (axis_prefix +:+ "_y") = Some (VList ys) →
  group !! (axis_prefix +:+ "_z") = Some (VList zs) →
  length xs = length offsets → length ys = length offsets → length zs = length offsets →
  fromtimestamp_ms 0 = Returned epoch →
  Forall (offset_ok epoch) offsets →
  group_body axis_prefix group
  = group_body axis_prefix (<["timestamp_ms" := VScalar (SInt 0)]> group)
  ∧ ∃ emitted : list SensorSampleRow,
      table_rows (_extract_sensor_data_fast self sensor_type w)
      = table_rows (_extract_sensor_data_fast (with_messages self message_key pre) sensor_type w)
        ++ emitted
        ++ table_rows (_extract_sensor_data_fast (with_messages self message_key post) sensor_type w)
      ∧ length emitted = length offsets
      ∧ ∀ i o x y z,
          offsets !! i = Some o → xs !! i = Some x → ys !! i = Some y → zs !! i = Some z →
          emitted !! i
          = Some {| row_timestamp := (epoch + o * 1000)%Z; row_x := x; row_y := y; row_z := z |}.
Proof.
  intros Hk Hm Hb Ho Hx Hy Hz Lx Ly Lz Ht Hok. split.
  - unfold group_body, get. cbv zeta.
    rewrite Hb, lookup_insert_eq.
    destruct (sensor_keys_inv _ _ _ Hk) as [-> | ->];
      by rewrite !lookup_insert_ne by done.
  - exists (group_rows axis_prefix group). split.
    + by apply table_rows_split.
    + apply (group_rows_valid _ _ 0%Z); try done.
      by apply get_absent.
Qed.

Lemma concat_map_nil {A B : Type} (f : A → list B) (l : list A) :
  concat (map f l) = [] ↔ Forall (λ a, f a = []) l.
Proof.
  induction l as [|a l IH]; simpl.
  - split; [constructor|done].
  - split.
    + intros [E1 E2]%app_eq_nil. constructor; [done|]. by apply IH.
    + intros H. inversion H as [|? ? E1 E2]; subst. rewrite E1. simpl. by apply IH.
Qed.

(** C4, as the code has it: the expander returns "no data" when the message
    type is absent and also when it is present but no group yields a row, and
    a table with at least one row otherwise.  The returned value is the same
    in the first two cases; only the line printed for an absent type tells
    them apart. *)
Theorem no_data_or_rows self sensor_type message_key axis_prefix w :
  sensor_keys sensor_type = Returned (message_key, axis_prefix) →
  ∃ r : option SensorFrame,
    (_extract_sensor_data_fast self sensor_type w).1 = Returned r
    ∧ (r = None ↔
         messages self !! message_key = None
         ∨ ∃ groups, messages self !! message_key = Some groups
                     ∧ Forall (λ g, group_rows axis_prefix g = []) groups)
    ∧ (∀ df, r = Some df → rows df ≠ [])
    ∧ (_extract_sensor_data_fast self sensor_type w).2
      = match messages self !! message_key with
        | None => {| disk := disk w;
                     stdout := stdout w
                               ++ [No_sensor_data sensor_type (name (file_path self))] |}
        | Some _ => w
        end.
Proof.
  intros Hk. destruct (messages self !! message_key) as [groups|] eqn:Hm.
  - destruct (extract_present self sensor_type _ _ groups w Hk Hm) as [Hr ->].
    simpl. eexists. split; [done|]. rewrite Hr.
    destruct (concat (map (group_rows axis_prefix) groups)) as [|row l] eqn:Ec.
    + split; [|done]. split; [|done]. intros _. right. exists groups.
      split; [done|]. by apply concat_map_nil.
    + split; [|split; [|done]].
      * split; [done|]. intros [?|(groups'&?&Hf)]; [done|]. simplify_eq.
        apply concat_map_nil in Hf. congruence.
      * intros df [= <-]. by rewrite Hr.
  - exists None. unfold _extract_sensor_data_fast, iobind, lift, ret, print.
    rewrite Hk, Hm. simpl. repeat split; auto.
Qed.

(** ** The self-report detector *)

Lemma open_count_app df df' : open_count (df ++ df') = open_count df + open_count df'.
Proof. unfold open_count. by rewrite List.filter_app, length_app. Qed.

Lemma set_last_end_app df r timestamp :
  set_last_end (df ++ [r]) timestamp = Returned (df ++ [set_end timestamp r]).
Proof.
  unfold set_last_end. destruct (df ++ [r]) as [|r' df'] eqn:E.
  - by destruct df.
  - rewrite <- E. f_equal. rewrite length_app. simpl.
    replace (length df + 1 - 1) with (length df + 0) by lia.
    by rewrite alter_app_r.
Qed.

(** The detector on a table that satisfies the invariant: it returns, and the
    three branches are an opening, a closing and no change. *)
Lemma process_self_reports_cases timestamp event_type df active field :
  detector_inv df active →
  (active = false ∧ eq_int field 1 = true ∧ in_valid_event_types event_type = true
   ∧ _process_self_reports timestamp event_type df active field
     = Returned (df ++ [{| start_timestamp := timestamp;
                           sr_end_timestamp := NAN;
                           sr_event_type := event_type |}], true))
  ∨ (active = true ∧ eq_int field 0 = true ∧ in_valid_event_types event_type = true
     ∧ ∃ earlier opened,
         df = earlier ++ [opened] ∧ sr_end_timestamp opened = NAN
         ∧ open_count earlier = 0
         ∧ _process_self_reports timestamp event_type df active field
           = Returned (earlier ++ [set_end timestamp opened], false))
  ∨ ((in_valid_event_types event_type = false
      ∨ (active = true ∧ eq_int field 0 = false)
      ∨ (active = false ∧ eq_int field 1 = false))
     ∧ _process_self_reports timestamp event_type df active field
       = Returned (df, active)).
Proof.
  intros Hinv. unfold _process_self_reports.
  destruct (in_valid_event_types event_type); [|right; right; auto].
  destruct active; simpl.
  - destruct (eq_int field 0) eqn:E0; [|right; right; auto].
    right; left. destruct Hinv as (earlier & opened & -> & Hop & Hc).
    repeat split; try done. exists earlier, opened.
    by rewrite set_last_end_app.
  - destruct (eq_int field 1) eqn:E1; [left; auto|right; right; auto].
Qed.

Lemma process_self_reports_inv timestamp event_type df active field df' active' :
  detector_inv df active →
  _process_self_reports timestamp event_type df active field = Returned (df', active') →
  detector_inv df' active'.
Proof.
  intros Hinv E.
  destruct (process_self_reports_cases timestamp event_type df active field Hinv)
    as [(-> & _ & _ & E') | [(-> & _ & _ & earlier & opened & -> & Hop & Hc & E')
                             | (_ & E')]];
    rewrite E' in E; simplify_eq; simpl in *; try done.
  - by exists df, {| start_timestamp := timestamp; sr_end_timestamp := NAN;
                     sr_event_type := event_type |}.
  - rewrite open_count_app, Hc. done.
Qed.

(** ** The walk over the records *)

Lemma detect_append_row st timestamp heart_rate dev_field t dev_fields :
  detect (append_row st timestamp heart_rate dev_field) t dev_fields
  = detect st t dev_fields.
Proof. done. Qed.

(** The outcomes of one iteration. *)
Lemma record_step_cases st record :
  record_step st record = st
  ∨ ∃ timestamp heart_rate dev_fields dev_field,
      get record "timestamp" (VScalar SNone) ≠ VScalar SNone
      ∧ read_row record = Returned (timestamp, heart_rate, dev_fields, dev_field)
      ∧ ((∃ e, detect st timestamp dev_fields = Raised e
               ∧ record_step st record = append_row st timestamp heart_rate dev_field)
         ∨ (∃ d, detect st timestamp dev_fields = Returned d
                 ∧ record_step st record
                   = set_detector (append_row st timestamp heart_rate dev_field) d)).
Proof.
  unfold record_step. case_decide as Hts; [by left|].
  destruct (read_row record) as [[[[timestamp heart_rate] dev_fields] dev_field]|];
    [|by left].
  right. exists timestamp, heart_rate, dev_fields, dev_field.
  split; [done|]. split; [done|]. rewrite detect_append_row.
  destruct (detect st timestamp dev_fields) as [d|e]; [right|left]; eauto.
Qed.

Lemma detect_inv st timestamp dev_fields d :
  detector_inv (df_event_self_reports st) (is_event_active st) →
  detect st timestamp dev_fields = Returned d →
  detector_inv d.1 d.2.
Proof.
  intros Hinv. unfold detect.
  destruct (getitem dev_fields 1) as [field|]; [|discriminate].
  destruct (getitem dev_fields 2) as [event_type|]; [|discriminate].
  cbn [bind]. destruct d as [df' active'].
  by apply process_self_reports_inv.
Qed.

Lemma record_step_inv st record :
  detector_inv (df_event_self_reports st) (is_event_active st) →
  detector_inv (df_event_self_reports (record_step st record))
               (is_event_active (record_step st record)).
Proof.
  intros Hinv.
  destruct (record_step_cases st record)
    as [-> | (t & hr & dev & d0 & _ & _ & [(e & _ & ->) | (d & Hd & ->)])];
    try done.
  simpl. by eapply detect_inv.
Qed.

Lemma record_loop_inv records st :
  detector_inv (df_event_self_reports st) (is_event_active st) →
  detector_inv (df_event_self_reports (fold_left record_step records st))
               (is_event_active (fold_left record_step records st)).
Proof.
  revert st. induction records as [|r records IH]; intros st Hinv; [done|].
  simpl. apply IH. by apply record_step_inv.
Qed.

Lemma record_walk_inv records :
  detector_inv (df_event_self_reports (record_walk records))
               (is_event_active (record_walk records)).
Proof. by apply record_loop_inv. Qed.

Lemma detector_inv_open_count df active :
  detector_inv df active → open_count df = if active then 1 else 0.
Proof.
  destruct active; simpl; [|done].
  intros (earlier & opened & -> & Hop & Hc).
  rewrite open_count_app, Hc. unfold open_count. simpl.
  unfold is_open. by rewrite Hop.
Qed.

Lemma record_walk_app records records' :
  record_walk (records ++ records')
  = fold_left record_step records' (record_walk records).
Proof. unfold record_walk. by rewrite fold_left_app. Qed.

Lemma record_walk_snoc records record :
  record_walk (records ++ [record]) = record_step (record_walk records) record.
Proof. by rewrite record_walk_app. Qed.

Lemma read_row_inv record timestamp heart_rate dev_fields dev_field :
  read_row record = Returned (timestamp, heart_rate, dev_fields, dev_field) →
  to_datetime (get record "timestamp" (VScalar SNone)) = Returned timestamp
  ∧ heart_rate = get record "heart_rate" (VScalar SNone)
  ∧ dev_fields = get record "developer_fields" (VList [])
  ∧ (if truthy dev_fields then getitem dev_fields 0 else Returned SNone)
    = Returned dev_field.
Proof.
  unfold read_row. cbv zeta.
  destruct (to_datetime _) as [t|]; [|discriminate]. cbn [bind].
  destruct (if truthy _ then _ else _) as [d0|] eqn:Ed; [|discriminate]. cbn [bind].
  intros [= <- <- <- <-]. done.
Qed.

Lemma to_datetime_not_None timestamp_raw timestamp :
  to_datetime timestamp_raw = Returned timestamp → timestamp_raw ≠ VScalar SNone.
Proof. by intros E ->. Qed.

(** A value that has an element counts as true. *)
Lemma getitem_truthy v i s : getitem v i = Returned s → truthy v = true.
Proof. by destruct v as [?|[|??]|[|??]]. Qed.

(** A record with a timestamp, the primary developer field and the two
    auxiliary fields reaches the detector. *)
Lemma record_step_detector st record timestamp primary field event_type :
  to_datetime (get record "timestamp" (VScalar SNone)) = Returned timestamp →
  getitem (get record "developer_fields" (VList [])) 0 = Returned primary →
  getitem (get record "developer_fields" (VList [])) 1 = Returned field →
  getitem (get record "developer_fields" (VList [])) 2 = Returned event_type →
  record_step st record
  = let st1 := append_row st timestamp (get record "heart_rate" (VScalar SNone))
                 primary in
    match _process_self_reports timestamp event_type (df_event_self_reports st)
            (is_event_active st) field with
    | Returned d => set_detector st1 d
    | Raised _ => st1
    end.
Proof.
  intros Ht H0 H1 H2. unfold record_step.
  rewrite decide_False by by eapply to_datetime_not_None.
  unfold read_row. cbv zeta. rewrite Ht. cbn [bind].
  rewrite (getitem_truthy _ _ _ H0), H0. cbn [bind].
  unfold detect. rewrite H1, H2. done.
Qed.

(** C8: after any number of records of the walk at most one interval of the
    table is open, and a record whose active flag equals 1 met while the
    detector is active changes neither the table nor the flag, whatever its
    event-type code. *)
Theorem at_most_one_open_interval records n :
  let st := record_walk (take n records) in
  open_count (df_event_self_reports st) ≤ 1
  ∧ ∀ record field,
      is_event_active st = true →
      getitem (get record "developer_fields" (VList [])) 1 = Returned field →
      eq_int field 1 = true →
      df_event_self_reports (record_step st record) = df_event_self_reports st
      ∧ is_event_active (record_step st record) = true.
Proof.
  intros st. pose proof (record_walk_inv (take n records)) as Hinv.
  fold st in Hinv. split.
  - rewrite (detector_inv_open_count _ _ Hinv).
    destruct (is_event_active st); lia.
  - intros record field Hact H1 Hon.
    destruct (record_step_cases st record)
      as [-> | (t & hr & dev & d0 & _ & Hrow & [(e & _ & ->) | (d & Hd & ->)])];
      try done.
    apply read_row_inv in Hrow as (_ & _ & -> & _).
    unfold detect in Hd. rewrite H1 in Hd. cbn [bind] in Hd.
    destruct (getitem _ 2) as [event_type|]; [|discriminate]. cbn [bind] in Hd.
    unfold _process_self_reports in Hd. rewrite Hact in Hd.
    destruct field as [|m|]; try discriminate. simpl in Hon.
    apply Z.eqb_eq in Hon as ->. simpl in Hd.
    destruct (in_valid_event_types event_type); by simplify_eq.
Qed.

Lemma columns_app_assoc c1 c2 c3 :
  columns_app (columns_app c1 c2) c3 = columns_app c1 (columns_app c2 c3).
Proof. unfold columns_app. simpl. by rewrite !app_assoc. Qed.

(** What a record adds to the columns does not depend on the state. *)
Lemma record_step_columns st record :
  columns (record_step st record)
  = columns_app (columns st) (columns (record_step walk_start record)).
Proof.
  unfold record_step, columns, columns_app. case_decide.
  - simpl. by rewrite !app_nil_r.
  - destruct (read_row record) as [[[[t hr] dev] d0]|].
    + rewrite !detect_append_row.
      by destruct (detect st t dev), (detect walk_start t dev).
    + simpl. by rewrite !app_nil_r.
Qed.

Lemma record_loop_columns records st :
  columns (fold_left record_step records st)
  = columns_app (columns st) (columns (record_walk records)).
Proof.
  unfold record_walk. revert st.
  induction records as [|r records IH]; intros st.
  - unfold columns, columns_app. simpl. by rewrite !app_nil_r.
  - simpl. rewrite IH, (IH (record_step walk_start r)).
    by rewrite record_step_columns, columns_app_assoc.
Qed.



Lemma record_step_timestamps st record :
  timestamps st ≠ [] → timestamps (record_step st record) ≠ [].
Proof.
  intros Hne.
  destruct (record_step_cases st record)
    as [-> | (t & hr & dev & d0 & _ & _ & [(e & _ & ->) | (d & _ & ->)])];
    simpl; try done; by destruct (timestamps st).
Qed.

(** While the detector stays active the table does not change. *)
Lemma record_step_stays_active st record :
  is_event_active st = true →
  is_event_active (record_step st record) = true →
  df_event_self_reports (record_step st record) = df_event_self_reports st.
Proof.
  intros Hact Hact'.
  destruct (record_step_cases st record)
    as [-> | (t & hr & dev & d0 & _ & _ & [(e & _ & ->) | (d & Hd & Hs)])];
    try done.
  rewrite Hs in Hact' |- *. simpl in *.
  unfold detect in Hd.
  destruct (getitem dev 1) as [field|]; [|discriminate].
  destruct (getitem dev 2) as [event_type|]; [|discriminate].
  cbn [bind] in Hd. unfold _process_self_reports in Hd. rewrite Hact in Hd.
  destruct (in_valid_event_types event_type); [|by simplify_eq].
  simpl in Hd. destruct (eq_int field 0); [|by simplify_eq].
  destruct (set_last_end _ _); simpl in Hd; by simplify_eq.
Qed.

(** The detector becomes active on a record that opens an interval. *)
Lemma record_step_opens st record :
  is_event_active st = false →
  is_event_active (record_step st record) = true →
  ∃ timestamp event_type,
    to_datetime (get record "timestamp" (VScalar SNone)) = Returned timestamp
    ∧ getitem (get record "developer_fields" (VList [])) 2 = Returned event_type
    ∧ df_event_self_reports (record_step st record)
      = df_event_self_reports st
        ++ [{| start_timestamp := timestamp;
               sr_end_timestamp := NAN;
               sr_event_type := event_type |}]
    ∧ timestamps (record_step st record) ≠ [].
Proof.
  intros Hact Hact'.
  destruct (record_step_cases st record)
    as [E | (t & hr & dev & d0 & _ & Hrow & [(e & _ & E) | (d & Hd & E)])];
    rewrite E in Hact' |- *; simpl in *; try congruence.
  apply read_row_inv in Hrow as (Ht & _ & -> & _).
  unfold detect in Hd.
  destruct (getitem _ 1) as [field|]; [|discriminate].
  destruct (getitem _ 2) as [event_type|]; [|discriminate].
  cbn [bind] in Hd. unfold _process_self_reports in Hd. rewrite Hact in Hd.
  exists t, event_type. split; [done|]. split; [done|].
  split; [|by destruct (timestamps st)].
  destruct (in_valid_event_types event_type); [|simplify_eq; simpl in *; congruence].
  simpl in Hd. destruct (eq_int field 1); simplify_eq; simpl in *; congruence.
Qed.

Lemma record_walk_aligned records :
  length (heart_rates (record_walk records)) = length (timestamps (record_walk records))
  ∧ length (developer_fields (record_walk records))
    = length (timestamps (record_walk records)).
Proof.
  induction records as [|r records IH] using rev_ind; [done|].
  rewrite record_walk_snoc.
  destruct (record_step_cases (record_walk records) r)
    as [-> | (t & hr & dev & d0 & _ & _ & [(e & _ & ->) | (d & _ & ->)])];
    simpl; rewrite ?length_app; simpl; lia.
Qed.

(** A walk that has a row gives the two tables. *)
Lemma record_extract_rows self records w :
  messages self !! "record_mesgs" = Some records →
  timestamps (record_walk records) ≠ [] →
  _extract_record_data_fast self w
  = (Returned
       (Some ({| rf_timestamp := timestamps (record_walk records);
                 rf_heart_rate := heart_rates (record_walk records);
                 rf_developer_field := developer_fields (record_walk records) |},
              df_event_self_reports (record_walk records))),
     w).
Proof.
  intros Hm Hne. unfold _extract_record_data_fast. rewrite Hm. cbv zeta.
  destruct (timestamps (record_walk records)) as [|t ts] eqn:Ets; [done|].
  unfold iobind, lift, ret, RecordDataFrame.
  destruct (record_walk_aligned records) as [-> ->].
  by rewrite Ets, Nat.eqb_refl.
Qed.

(** The interval that is open at the end of a walk is the one opened by the
    last record met while the detector was idle. *)
Lemma record_walk_ends_active records :
  is_event_active (record_walk records) = true →
  ∃ pre record post timestamp event_type,
    records = pre ++ record :: post
    ∧ is_event_active (record_walk pre) = false
    ∧ to_datetime (get record "timestamp" (VScalar SNone)) = Returned timestamp
    ∧ getitem (get record "developer_fields" (VList [])) 2 = Returned event_type
    ∧ df_event_self_reports (record_walk records)
      = df_event_self_reports (record_walk pre)
        ++ [{| start_timestamp := timestamp;
               sr_end_timestamp := NAN;
               sr_event_type := event_type |}]
    ∧ timestamps (record_walk records) ≠ [].
Proof.
  induction records as [|r' records IH] using rev_ind; [done|].
  rewrite record_walk_snoc. intros Hact'.
  destruct (is_event_active (record_walk records)) eqn:Hact.
  - destruct IH as (pre & r & post & t & et & -> & Hidle & Ht & Het & Hdf & Hne);
      [done|].
    exists pre, r, (post ++ [r']), t, et.
    rewrite <- app_assoc. simpl. repeat split; try done.
    + by rewrite record_step_stays_active.
    + by apply record_step_timestamps.
  - destruct (record_step_opens _ r' Hact Hact') as (t & et & Ht & Het & Hdf & Hne).
    by exists records, r', [], t, et.
Qed.

(** The rows of a walk stay. *)
Lemma record_loop_timestamps records st :
  timestamps st ≠ [] → timestamps (fold_left record_step records st) ≠ [].
Proof.
  revert st. induction records as [|r records IH]; intros st Hne; [done|].
  simpl. by apply IH, record_step_timestamps.
Qed.

(** C3, as the code has it: when the detector is active and a record whose
    timestamp converts, which carries the primary developer field and the two
    auxiliary fields, has a recognised event-type code (1 or 2) and the active
    flag 0, the last interval of the table, which is the open one, gets the
    timestamp of the record as its end and the detector becomes idle; a record
    whose event-type code is not recognised changes neither the table nor the
    flag, whatever its active flag and its other fields.  The table spoken of
    is the self-report table that the extraction returns for the stream that
    ends with the record. *)
Theorem off_closes_open_interval pre record :
  is_event_active (record_walk pre) = true →
  let before := record_walk pre in
  let after := record_walk (pre ++ [record]) in
  let dev_fields := get record "developer_fields" (VList []) in
  (∃ df_records, ∀ self w,
     messages self !! "record_mesgs" = Some (pre ++ [record]) →
     _extract_record_data_fast self w
     = (Returned (Some (df_records, df_event_self_reports after)), w))
  ∧ (∀ timestamp primary field event_type,
       to_datetime (get record "timestamp" (VScalar SNone)) = Returned timestamp →
       getitem dev_fields 0 = Returned primary →
       getitem dev_fields 1 = Returned field →
       getitem dev_fields 2 = Returned event_type →
       in_valid_event_types event_type = true → eq_int field 0 = true →
       ∃ earlier opened,
         df_event_self_reports before = earlier ++ [opened]
         ∧ sr_end_timestamp opened = NAN
         ∧ df_event_self_reports after = earlier ++ [set_end timestamp opened]
         ∧ is_event_active after = false)
  ∧ (∀ event_type,
       getitem dev_fields 2 = Returned event_type →
       in_valid_event_types event_type = false →
       df_event_self_reports after = df_event_self_reports before
       ∧ is_event_active after = true).
Proof.
  intros Hact before after dev_fields. subst dev_fields.
  split.
  { eexists. intros self w Hm. apply (record_extract_rows self _ w Hm).
    unfold record_walk. rewrite fold_left_app. apply record_loop_timestamps.
    by destruct (record_walk_ends_active pre Hact) as (? & ? & ? & ? & ? & _ & _ & _ & _ & _ & Hne). }
  subst after. rewrite record_walk_snoc. fold before.
  pose proof (record_walk_inv pre) as Hinv. fold before in Hinv, Hact.
  split.
  - intros timestamp primary field event_type Ht H0 H1 H2 Hvalid Hoff.
    rewrite (record_step_detector before record timestamp primary field event_type
               Ht H0 H1 H2). cbv zeta.
    destruct (process_self_reports_cases timestamp event_type
                (df_event_self_reports before) (is_event_active before) field Hinv)
      as [(Hf & _) | [(_ & _ & _ & earlier & opened & Hdf & Hop & _ & ->)
                      | ([Hv | [(_ & Hne) | (Hf & _)]] & _)]];
      try congruence.
    by exists earlier, opened.
  - intros event_type H2 Hinvalid.
    destruct (record_step_cases before record)
      as [-> | (t & hr & dev & d0 & _ & Hrow & [(e & _ & ->) | (d & Hd & ->)])];
      try done.
    apply read_row_inv in Hrow as (_ & _ & -> & _).
    unfold detect in Hd.
    destruct (getitem _ 1) as [field|]; [|discriminate].
    rewrite H2 in Hd. cbn [bind] in Hd.
    unfold _process_self_reports in Hd. rewrite Hinvalid in Hd.
    by simplify_eq.
Qed.

(** C9: when the walk over the records of a file ends with the detector
    active, the extraction returns a self-report table whose last row is the
    interval opened last: its start is the timestamp of the record that opened
    it, its event type is the code of that record and its end is the marker
    NAN; the rows before it are the table as it was when that record was met. *)
Theorem truncated_stream_keeps_open_interval self records w :
  messages self !! "record_mesgs" = Some records →
  is_event_active (record_walk records) = true →
  ∃ pre record post timestamp event_type df_records,
    records = pre ++ record :: post
    ∧ is_event_active (record_walk pre) = false
    ∧ to_datetime (get record "timestamp" (VScalar SNone)) = Returned timestamp
    ∧ getitem (get record "developer_fields" (VList [])) 2 = Returned event_type
    ∧ _extract_record_data_fast self w
      = (Returned
           (Some (df_records,
                  df_event_self_reports (record_walk pre)
                  ++ [{| start_timestamp := timestamp;
                         sr_end_timestamp := NAN;
                         sr_event_type := event_type |}])),
         w).
Proof.
  intros Hm Hact.
  destruct (record_walk_ends_active records Hact)
    as (pre & r & post & t & et & Hrec & Hidle & Ht & Het & Hdf & Hne).
  exists pre, r, post, t, et. eexists. repeat split; try done.
  unfold _extract_record_data_fast. rewrite Hm. cbv zeta.
  destruct (timestamps (record_walk records)) as [|t0 ts] eqn:Ets; [done|].
  unfold iobind, lift, ret, RecordDataFrame.
  destruct (record_walk_aligned records) as [-> ->].
  rewrite Nat.eqb_refl. simpl. by rewrite Hdf.
Qed.



(** ** The file unit and the batch *)

(** The expander does not raise for a sensor type it knows: it returns a
    table or "no data". *)
Lemma sensor_extract_returns self sensor_type message_key axis_prefix w :
  sensor_keys sensor_type = Returned (message_key, axis_prefix) →
  ∃ r w', _extract_sensor_data_fast self sensor_type w = (Returned r, w').
Proof.
  intros Hk. destruct (messages self !! message_key) as [groups|] eqn:Hm.
  - destruct (extract_present self sensor_type _ _ groups w Hk Hm) as [_ ->]. eauto.
  - unfold _extract_sensor_data_fast, iobind, lift, ret, print.
    rewrite Hk, Hm. simpl. eauto.
Qed.

Lemma save_returns {A : Type} (df : option A) to_table count kind path w :
  ∃ p w', save df to_table count kind path w = (Returned p, w').
Proof. destruct df; simpl; eauto. Qed.

Lemma record_extract_no_table self w :
  messages self !! "record_mesgs" = None
  ∨ (∃ records, messages self !! "record_mesgs" = Some records
                ∧ timestamps (record_walk records) = []) →
  ∃ w', _extract_record_data_fast self w = (Returned None, w').
Proof.
  unfold _extract_record_data_fast.
  intros [-> | (records & -> & Hts)].
  - unfold iobind, print, ret. simpl. eauto.
  - cbv zeta. rewrite Hts. unfold ret. eauto.
Qed.

(** A file that decodes but gives no record table makes the unit raise
    instead of returning its flag: [None] is unpacked as a pair. *)
Lemma unit_without_record_table_raises fit_file msgs errors w :
  fit_read fit_file = Returned (msgs, errors) →
  msgs !! "record_mesgs" = None
  ∨ (∃ records, msgs !! "record_mesgs" = Some records
                ∧ timestamps (record_walk records) = []) →
  (process_single_file fit_file w).1 = Raised TypeError.
Proof.
  intros Hread Hrec.
  unfold process_single_file, process_to_csv, decode_file. rewrite Hread.
  set (self := {| file_path := fit_path fit_file; messages := msgs |}).
  unfold iobind at 1 2 3.
  destruct ((match errors with
             | [] => ret ()
             | _ :: _ => print (Warning_errors_found (name (fit_path fit_file)))
             end) w) as [o w0] eqn:E0.
  assert (o = Returned ()) as ->.
  { destruct errors; unfold ret, print in E0; by simplify_eq. }
  unfold ret at 1. cbv zeta.
  destruct (sensor_extract_returns self "accelerometer" _ _ w0 eq_refl)
    as (r1 & w1 & E1).
  unfold iobind at 1. rewrite E1.
  unfold iobind at 1.
  destruct (save_returns r1 SensorCsv (λ d, length (sf_timestamp d))
              "accelerometer" (stem (file_path self) +:+ "_accelerometer.csv") w1)
    as (p1 & w2 & E2).
  rewrite E2.
  destruct (sensor_extract_returns self "gyroscope" _ _ w2 eq_refl)
    as (r2 & w3 & E3).
  unfold iobind at 1. rewrite E3.
  unfold iobind at 1.
  destruct (save_returns r2 SensorCsv (λ d, length (sf_timestamp d))
              "gyroscope" (stem (file_path self) +:+ "_gyroscope.csv") w3)
    as (p2 & w4 & E4).
  rewrite E4.
  destruct (record_extract_no_table self w4 Hrec) as (w5 & E5).
  unfold iobind at 1. rewrite E5.
  done.
Qed.

(** The pool branch never raises, whatever the workers did. *)
Lemma collect_returns completed success_count w :
  ∃ n w', collect completed success_count w = (Returned n, w').
Proof.
  revert success_count w.
  induction completed as [|fit_file rest IH]; intros success_count w; simpl.
  - unfold ret. eauto.
  - destruct (process_single_file fit_file w) as [[r|e] w'].
    + apply IH.
    + unfold iobind, print. apply IH.
Qed.

Lemma pool_batch_returns as_completed fit_files w :
  1 < length fit_files →
  ∃ w', process_all_files as_completed fit_files true w = (Returned (), w').
Proof.
  intros Hlen. unfold process_all_files.
  destruct fit_files as [|f fit_files]; [simpl in Hlen; lia|].
  rewrite (proj2 (Nat.ltb_lt _ _) Hlen). cbn [andb].
  unfold iobind at 1 2 3. unfold print at 1 2.
  match goal with |- context [collect ?l ?n ?w0] =>
    destruct (collect_returns l n w0) as (m & w' & ->) end.
  unfold iobind, print. eauto.
Qed.

(** The sequential branch stops at the first unit that raises. *)
Lemma sequential_raises fit_file rest success_count w e w' :
  process_single_file fit_file
    {| disk := disk w; stdout := stdout w ++ [Processing (name (fit_path fit_file))] |}
  = (Raised e, w') →
  sequential (fit_file :: rest) success_count w = (Raised e, w').
Proof.
  intros E. cbn [sequential]. unfold iobind, print. by rewrite E.
Qed.

(** ** More on the walk over the records *)

(** What one record adds to the three columns. *)
Lemma record_step_row record :
  columns (record_step walk_start record)
  = match record_row record with
    | Some (timestamp, heart_rate, dev_field) => ([timestamp], [heart_rate], [dev_field])
    | None => ([], [], [])
    end.
Proof.
  unfold record_step, record_row, read_row. cbv zeta.
  destruct (to_datetime _) as [t|e] eqn:Ht.
  - rewrite decide_False by by eapply to_datetime_not_None.
    cbn [bind]. destruct (truthy _).
    + destruct (getitem _ 0) as [primary|]; [|done]. cbn [bind].
      rewrite detect_append_row.
      destruct (detect _ _ _); by destruct primary.
    + cbn [bind]. rewrite detect_append_row. by destruct (detect _ _ _).
  - by case_decide.
Qed.

Lemma record_walk_rows records :
  columns (record_walk records)
  = ((λ row, row.1.1) <$> omap record_row records,
     (λ row, row.1.2) <$> omap record_row records,
     snd <$> omap record_row records).
Proof.
  induction records as [|record records IH]; [done|].
  unfold record_walk. cbn [fold_left].
  rewrite record_loop_columns, IH, record_step_row. simpl.
  by destruct (record_row record) as [[[t hr] d]|].
Qed.

(** The record table is made of the rows of the records, one by one and in
    the order of the stream: a record gives a row when its timestamp converts
    and its developer fields are empty (or absent, or a value that counts as
    false) or hold the entry 0; a record without timestamp, with a timestamp
    that does not convert, or with developer fields that are not empty and
    have no entry 0 gives nothing.  Without any row the extraction returns
    "no data"; the detector has no part in the record table. *)
Theorem record_table_rows self records w :
  messages self !! "record_mesgs" = Some records →
  let table := omap record_row records in
  (_extract_record_data_fast self w).1
  = Returned
      match table with
      | [] => None
      | _ :: _ =>
          Some ({| rf_timestamp := (λ row, row.1.1) <$> table;
                   rf_heart_rate := (λ row, row.1.2) <$> table;
                   rf_developer_field := snd <$> table |},
                df_event_self_reports (record_walk records))
      end.
Proof.
  intros Hm table. subst table.
  pose proof (record_walk_rows records) as Hc.
  unfold columns in Hc. injection Hc as Hts Hhr Hdev.
  destruct (omap record_row records) as [|row table] eqn:Et.
  - unfold _extract_record_data_fast. rewrite Hm. cbv zeta. by rewrite Hts.
  - rewrite (record_extract_rows self records w Hm) by by rewrite Hts.
    by rewrite Hts, Hhr, Hdev.
Qed.

(** The record table of a stream is the table of its first part followed by
    the table of the rest: what a record adds does not depend on the records
    before it nor on the detector. *)
Theorem record_table_concat records records' :
  timestamps (record_walk (records ++ records'))
  = timestamps (record_walk records) ++ timestamps (record_walk records')
  ∧ heart_rates (record_walk (records ++ records'))
    = heart_rates (record_walk records) ++ heart_rates (record_walk records')
  ∧ developer_fields (record_walk (records ++ records'))
    = developer_fields (record_walk records) ++ developer_fields (record_walk records').
Proof.
  rewrite record_walk_app.
  pose proof (record_loop_columns records' (record_walk records)) as H.
  unfold columns, columns_app in H. simpl in H. by injection H.
Qed.

(** The extraction of the records never raises.  It returns "no data" when
    the message type is absent or no record gives a row, and otherwise the
    three columns of the walk, of one length, with the self-report table of
    the walk (which may have no row). *)
Theorem record_extract_cases self w :
  ∃ r, (_extract_record_data_fast self w).1 = Returned r
    ∧ (r = None ↔
         messages self !! "record_mesgs" = None
         ∨ ∃ records, messages self !! "record_mesgs" = Some records
                      ∧ timestamps (record_walk records) = [])
    ∧ ∀ df_records df_self_reports,
        r = Some (df_records, df_self_reports) →
        ∃ records,
          messages self !! "record_mesgs" = Some records
          ∧ rf_timestamp df_records = timestamps (record_walk records)
          ∧ rf_heart_rate df_records = heart_rates (record_walk records)
          ∧ rf_developer_field df_records = developer_fields (record_walk records)
          ∧ length (rf_heart_rate df_records) = length (rf_timestamp df_records)
          ∧ length (rf_developer_field df_records) = length (rf_timestamp df_records)
          ∧ 0 < length (rf_timestamp df_records)
          ∧ df_self_reports = df_event_self_reports (record_walk records).
Proof.
  unfold _extract_record_data_fast.
  destruct (messages self !! "record_mesgs") as [records|] eqn:Hm.
  - cbv zeta. destruct (record_walk_aligned records) as [Hh Hd].
    destruct (timestamps (record_walk records)) as [|t ts] eqn:Ets.
    + exists None. split; [done|]. split; [|done].
      split; [|done]. intros _. right. by exists records.
    + unfold iobind, lift, ret, RecordDataFrame. rewrite Ets, Hh, Hd, Nat.eqb_refl.
      simpl. eexists. split; [done|]. split.
      * split; [done|]. intros [?|(records' & ? & ?)]; simplify_eq; congruence.
      * intros ?? [= <- <-]. exists records. simpl. rewrite Ets. simpl.
        repeat split; try done; lia.
  - exists None. unfold iobind, print, ret. simpl. split; [done|].
    split; [|done]. split; auto.
Qed.

(** In a walk the detector call itself never raises: the write to the last
    row of the self-report table is only reached when the table has a row. *)
Theorem detector_never_raises_in_walk records timestamp event_type field :
  ∃ d, _process_self_reports timestamp event_type
         (df_event_self_reports (record_walk records))
         (is_event_active (record_walk records)) field = Returned d.
Proof.
  destruct (process_self_reports_cases timestamp event_type _ _ field
              (record_walk_inv records))
    as [(_ & _ & _ & ->) | [(_ & _ & _ & ? & ? & _ & _ & _ & ->) | (_ & ->)]]; eauto.
Qed.

Lemma in_valid_event_types_inv event_type :
  in_valid_event_types event_type = true → event_type = SInt 1 ∨ event_type = SInt 2.
Proof.
  destruct event_type as [|n|]; simpl; try discriminate.
  intros H%bool_decide_eq_true. unfold VALID_SELF_REPORT_EVENT_TYPES in H.
  apply elem_of_union in H as [H%elem_of_singleton | H%elem_of_singleton]; subst; auto.
Qed.

Lemma set_last_end_inv df timestamp df' :
  set_last_end df timestamp = Returned df' →
  df' = alter (set_end timestamp) (length df - 1) df.
Proof. unfold set_last_end. destruct df; [discriminate|]. by intros [= <-]. Qed.

(** What one record does to the detector: nothing, an opening or a closing;
    in the last two cases the record has added its row. *)
Lemma record_step_detector_cases st record :
  detector (record_step st record) = detector st
  ∨ ∃ t event_type,
      to_datetime (get record "timestamp" (VScalar SNone)) = Returned t
      ∧ timestamps (record_step st record) = timestamps st ++ [t]
      ∧ in_valid_event_types event_type = true
      ∧ ((is_event_active st = false
          ∧ detector (record_step st record)
            = (df_event_self_reports st
               ++ [{| start_timestamp := t;
                      sr_end_timestamp := NAN;
                      sr_event_type := event_type |}], true))
         ∨ (is_event_active st = true
            ∧ ∃ df', set_last_end (df_event_self_reports st) t = Returned df'
                     ∧ detector (record_step st record) = (df', false))).
Proof.
  destruct (record_step_cases st record)
    as [-> | (t & hr & dev & d0 & _ & Hrow & [(e & _ & ->) | (d & Hd & ->)])];
    [by left|by left|].
  apply read_row_inv in Hrow as (Ht & _ & -> & _).
  unfold detect in Hd.
  destruct (getitem _ 1) as [field|]; [|discriminate].
  destruct (getitem _ 2) as [event_type|]; [|discriminate].
  cbn [bind] in Hd. unfold _process_self_reports in Hd.
  destruct (in_valid_event_types event_type) eqn:Hv; [|left; by simplify_eq].
  destruct (is_event_active st) eqn:Hact; simpl in Hd.
  - destruct (eq_int field 0); [|left; simplify_eq; unfold detector; simpl; by rewrite Hact].
    destruct (set_last_end _ _) as [df'|] eqn:Hs; [|discriminate].
    simpl in Hd. simplify_eq. right. exists t, event_type.
    repeat split; try done. right. split; [done|]. by exists df'.
  - destruct (eq_int field 1); [|left; simplify_eq; unfold detector; simpl; by rewrite Hact].
    simplify_eq. right. exists t, event_type. repeat split; try done. by left.
Qed.

(** Every interval of the self-report table carries a recognised event-type
    code, 1 or 2: other codes never reach the table. *)
Theorem self_report_codes_recognised records :
  Forall (λ r, sr_event_type r = SInt 1 ∨ sr_event_type r = SInt 2)
    (df_event_self_reports (record_walk records)).
Proof.
  induction records as [|record records IH] using rev_ind; [constructor|].
  rewrite record_walk_snoc.
  destruct (record_step_detector_cases (record_walk records) record)
    as [[= -> _] | (t & et & _ & _ & Hv
                    & [(_ & [= -> _]) | (_ & df' & Hs & [= -> _])])]; [done| |].
  - apply Forall_app. split; [done|]. constructor; [|constructor].
    by apply in_valid_event_types_inv.
  - apply set_last_end_inv in Hs as ->. by apply Forall_alter.
Qed.

Lemma record_step_timestamps_grow st record :
  ∃ extra, timestamps (record_step st record) = timestamps st ++ extra.
Proof.
  pose proof (record_step_columns st record) as H.
  unfold columns, columns_app in H. simpl in H. injection H as H _ _. eauto.
Qed.

(** The start of every interval and the end of every closed interval are
    timestamps of rows of the record table: the detector only sees records
    that have added their row. *)
Theorem interval_bounds_are_record_timestamps records :
  let st := record_walk records in
  Forall (λ r, start_timestamp r ∈ timestamps st
               ∧ ∀ t, sr_end_timestamp r = Closed t → t ∈ timestamps st)
    (df_event_self_reports st).
Proof.
  induction records as [|record records IH] using rev_ind; [constructor|].
  cbv zeta in *. rewrite record_walk_snoc.
  set (st := record_walk records) in *.
  destruct (record_step_timestamps_grow st record) as [extra Hts].
  assert (Forall (λ r, start_timestamp r ∈ timestamps (record_step st record)
                       ∧ ∀ t, sr_end_timestamp r = Closed t
                              → t ∈ timestamps (record_step st record))
            (df_event_self_reports st)) as IH'.
  { eapply Forall_impl; [exact IH|]. intros r [H1 H2]. rewrite Hts.
    split; [set_solver|]. intros t Ht. specialize (H2 t Ht). set_solver. }
  destruct (record_step_detector_cases st record)
    as [[= -> _] | (t & et & _ & Ht & _
                    & [(_ & [= -> _]) | (_ & df' & Hs & [= -> _])])]; [done| |].
  - apply Forall_app. split; [done|]. constructor; [|constructor]. simpl.
    rewrite Ht. split; [set_solver|done].
  - apply set_last_end_inv in Hs as ->. apply Forall_alter; [done|].
    intros r _ [H1 _]. simpl. split; [done|]. intros t' [= <-].
    rewrite Ht. set_solver.
Qed.

(** While the detector is active a record whose active flag is not 0 (or is
    missing) leaves the detector as it is. *)
Lemma record_step_quiet st record :
  is_event_active st = true →
  (∀ field, getitem (get record "developer_fields" (VList [])) 1 = Returned field
            → eq_int field 0 = false) →
  detector (record_step st record) = detector st.
Proof.
  intros Hact Hq.
  destruct (record_step_cases st record)
    as [-> | (t & hr & dev & d0 & _ & Hrow & [(e & _ & ->) | (d & Hd & ->)])];
    try done.
  apply read_row_inv in Hrow as (_ & _ & -> & _).
  unfold detect in Hd.
  destruct (getitem _ 1) as [field|] eqn:H1; [|discriminate].
  destruct (getitem _ 2) as [event_type|]; [|discriminate].
  cbn [bind] in Hd. unfold _process_self_reports in Hd.
  rewrite Hact, (Hq field eq_refl) in Hd. simpl in Hd.
  destruct (in_valid_event_types event_type); simplify_eq;
    unfold detector; simpl; by rewrite Hact.
Qed.

Lemma record_loop_quiet records st :
  is_event_active st = true →
  Forall (λ record,
            ∀ field, getitem (get record "developer_fields" (VList [])) 1 = Returned field
                     → eq_int field 0 = false) records →
  detector (fold_left record_step records st) = detector st.
Proof.
  intros Hact Hq. revert st Hact.
  induction Hq as [|record records Hr _ IH]; intros st Hact; [done|].
  simpl. pose proof (record_step_quiet st record Hact Hr) as E.
  rewrite IH; [done|]. unfold detector in E. injection E as _ E2. by rewrite E2.
Qed.

(** Pairing: from the idle state, a record with the flag 1 and a recognised
    code, then any records that do not carry the flag 0, then a record with
    the flag 0 and a recognised code give exactly one more interval, when the
    two records have a timestamp that converts and the primary developer
    field.  The interval runs from the timestamp of the first record to that
    of the last and has the code of the record that opened it; the detector is
    idle again, and the table with that interval is the self-report table the
    extraction returns. *)
Theorem on_then_off_one_interval pre r_on mid r_off t_on t_off
    primary primary' code code' :
  is_event_active (record_walk pre) = false →
  to_datetime (get r_on "timestamp" (VScalar SNone)) = Returned t_on →
  getitem (get r_on "developer_fields" (VList [])) 0 = Returned primary →
  getitem (get r_on "developer_fields" (VList [])) 1 = Returned (SInt 1) →
  getitem (get r_on "developer_fields" (VList [])) 2 = Returned code →
  in_valid_event_types code = true →
  Forall (λ record,
            ∀ field, getitem (get record "developer_fields" (VList [])) 1 = Returned field
                     → eq_int field 0 = false) mid →
  to_datetime (get r_off "timestamp" (VScalar SNone)) = Returned t_off →
  getitem (get r_off "developer_fields" (VList [])) 0 = Returned primary' →
  getitem (get r_off "developer_fields" (VList [])) 1 = Returned (SInt 0) →
  getitem (get r_off "developer_fields" (VList [])) 2 = Returned code' →
  in_valid_event_types code' = true →
  let st := record_walk (pre ++ r_on :: mid ++ [r_off]) in
  df_event_self_reports st
  = df_event_self_reports (record_walk pre)
    ++ [{| start_timestamp := t_on;
           sr_end_timestamp := Closed t_off;
           sr_event_type := code |}]
  ∧ is_event_active st = false
  ∧ ∃ df_records, ∀ self w,
      messages self !! "record_mesgs" = Some (pre ++ r_on :: mid ++ [r_off]) →
      _extract_record_data_fast self w
      = (Returned (Some (df_records, df_event_self_reports st)), w).
Proof.
  intros Hidle Hton Hon0 Hon1 Hon2 Hv Hmid Htoff Hoff0 Hoff1 Hoff2 Hv' st.
  assert (timestamps st ≠ []) as Hne.
  { subst st. rewrite record_walk_app. cbn [fold_left].
    apply record_loop_timestamps.
    rewrite (record_step_detector _ r_on t_on primary (SInt 1) code
               Hton Hon0 Hon1 Hon2). cbv zeta.
    destruct (_process_self_reports _ _ _ _ _); simpl;
      by destruct (timestamps (record_walk pre)). }
  cut (df_event_self_reports st
       = df_event_self_reports (record_walk pre)
         ++ [{| start_timestamp := t_on;
                sr_end_timestamp := Closed t_off;
                sr_event_type := code |}]
       ∧ is_event_active st = false).
  { intros [Hdf Hact]. split; [exact Hdf|]. split; [exact Hact|].
    eexists. intros self w Hm. by apply (record_extract_rows self _ w Hm). }
  clear Hne. subst st.
  rewrite record_walk_app. cbn [fold_left]. rewrite fold_left_app. cbn [fold_left].
  set (st0 := record_walk pre) in *.
  pose proof (record_step_detector st0 r_on t_on primary (SInt 1) code
                Hton Hon0 Hon1 Hon2) as E1.
  unfold _process_self_reports in E1. rewrite Hv, Hidle in E1. simpl in E1.
  set (st1 := record_step st0 r_on) in *.
  assert (detector st1
          = (df_event_self_reports st0
             ++ [{| start_timestamp := t_on; sr_end_timestamp := NAN;
                    sr_event_type := code |}], true)) as D1 by by rewrite E1.
  injection D1 as Hdf1 Hact1.
  pose proof (record_loop_quiet mid st1 Hact1 Hmid) as D2.
  set (st2 := fold_left record_step mid st1) in *.
  injection D2 as Hdf2 Hact2.
  rewrite (record_step_detector st2 r_off t_off primary' (SInt 0) code'
             Htoff Hoff0 Hoff1 Hoff2).
  unfold _process_self_reports. rewrite Hv', Hact2, Hact1, Hdf2, Hdf1. simpl.
  rewrite set_last_end_app. done.
Qed.

(** ** What a unit does to the world *)

Lemma writes_ret {A : Type} paths (a : A) : writes_only paths (ret a).
Proof.
  exists (Returned a), ∅, []. split; [set_solver|].
  intros [d out]. unfold ret. simpl. by rewrite (left_id_L ∅ (∪)), app_nil_r.
Qed.

Lemma writes_lift {A : Type} paths (m : outcome A) : writes_only paths (lift m).
Proof.
  exists m, ∅, []. split; [set_solver|].
  intros [d out]. unfold lift. simpl. by rewrite (left_id_L ∅ (∪)), app_nil_r.
Qed.

Lemma writes_print paths l : writes_only paths (print l).
Proof.
  exists (Returned ()), ∅, [l]. split; [set_solver|].
  intros [d out]. unfold print. simpl. by rewrite (left_id_L ∅ (∪)).
Qed.

Lemma writes_to_csv paths t path : path ∈ paths → writes_only paths (to_csv t path).
Proof.
  intros Hin. exists (Returned ()), {[path := t]}, []. split.
  - rewrite dom_singleton_L. set_solver.
  - intros [d out]. unfold to_csv. simpl.
    by rewrite insert_union_singleton_l, app_nil_r.
Qed.

Lemma writes_bind {A B : Type} paths (m : IO A) (k : A → IO B) :
  writes_only paths m → (∀ a, writes_only paths (k a)) →
  writes_only paths (iobind m k).
Proof.
  intros (o & d & out & Hd & Hm) Hk. destruct o as [a|e].
  - destruct (Hk a) as (o2 & d2 & out2 & Hd2 & Hk2).
    exists o2, (d2 ∪ d), (out ++ out2). split.
    + rewrite dom_union_L. by apply union_least.
    + intros w. unfold iobind. rewrite Hm, Hk2. simpl.
      rewrite (assoc_L (∪)), (assoc_L (++)). reflexivity.
  - exists (Raised e), d, out. split; [done|].
    intros w. unfold iobind. by rewrite Hm.
Qed.

Lemma writes_sensor paths self sensor_type :
  writes_only paths (_extract_sensor_data_fast self sensor_type).
Proof.
  unfold _extract_sensor_data_fast.
  apply writes_bind; [apply writes_lift|]. intros [message_key axis_prefix].
  destruct (messages self !! message_key) as [groups|].
  - cbv zeta. destruct (sf_timestamp _); [apply writes_ret|].
    apply writes_bind; [apply writes_lift|]. intros df. apply writes_ret.
  - apply writes_bind; [apply writes_print|]. intros _. apply writes_ret.
Qed.

Lemma writes_record paths self : writes_only paths (_extract_record_data_fast self).
Proof.
  unfold _extract_record_data_fast.
  destruct (messages self !! "record_mesgs") as [records|].
  - cbv zeta. destruct (timestamps _); [apply writes_ret|].
    apply writes_bind; [apply writes_lift|]. intros df. apply writes_ret.
  - apply writes_bind; [apply writes_print|]. intros _. apply writes_ret.
Qed.

Lemma writes_save {A : Type} paths (df : option A) to_table count kind path :
  path ∈ paths → writes_only paths (save df to_table count kind path).
Proof.
  intros Hin. destruct df as [d|]; simpl; [|apply writes_ret].
  apply writes_bind; [by apply writes_to_csv|]. intros _.
  apply writes_bind; [apply writes_print|]. intros _. apply writes_ret.
Qed.

Lemma writes_decode paths fit_file : writes_only paths (decode_file fit_file).
Proof.
  unfold decode_file. destruct (fit_read fit_file) as [[msgs errors]|e].
  - apply writes_bind; [|intros _; apply writes_ret].
    destruct errors; [apply writes_ret|apply writes_print].
  - apply writes_bind; [apply writes_print|]. intros _. apply writes_ret.
Qed.

Lemma writes_bind_result {A B : Type} paths (m : IO A) (k : A → IO B) o d out :
  dom d ⊆ paths →
  (∀ w, m w = (o, {| disk := d ∪ disk w; stdout := stdout w ++ out |})) →
  (∀ a, o = Returned a → writes_only paths (k a)) →
  writes_only paths (iobind m k).
Proof.
  intros Hd Hm Hk. destruct o as [a|e].
  - destruct (Hk a eq_refl) as (o2 & d2 & out2 & Hd2 & Hk2).
    exists o2, (d2 ∪ d), (out ++ out2). split.
    + rewrite dom_union_L. by apply union_least.
    + intros w. unfold iobind. rewrite Hm, Hk2. simpl.
      rewrite (assoc_L (∪)), (assoc_L (++)). reflexivity.
  - exists (Raised e), d, out. split; [done|].
    intros w. unfold iobind. by rewrite Hm.
Qed.

(** [decode_file] writes nothing and hands on the messages of the file. *)
Lemma decode_file_result fit_file :
  ∃ out, ∀ w,
    decode_file fit_file w
    = (Returned match fit_read fit_file with
                | Returned (msgs, _) =>
                    Some {| file_path := fit_path fit_file; messages := msgs |}
                | Raised _ => None
                end,
       {| disk := ∅ ∪ disk w; stdout := stdout w ++ out |}).
Proof.
  unfold decode_file. destruct (fit_read fit_file) as [[msgs errors]|e].
  - destruct errors as [|error errors].
    + exists []. intros [d out]. unfold iobind, ret. simpl.
      by rewrite (left_id_L ∅ (∪)), app_nil_r.
    + eexists [_]. intros [d out]. unfold iobind, ret, print. simpl.
      by rewrite (left_id_L ∅ (∪)).
  - eexists [_]. intros [d out]. unfold iobind, ret, print. simpl.
    by rewrite (left_id_L ∅ (∪)).
Qed.

Lemma writes_unit fit_file :
  writes_only (unit_paths fit_file) (process_single_file fit_file).
Proof.
  unfold process_single_file, process_to_csv.
  apply writes_bind; [|intros results; apply writes_ret].
  destruct (decode_file_result fit_file) as [out Hdec].
  eapply writes_bind_result; [|exact Hdec|]; [set_solver|].
  intros decoded Hdecoded.
  destruct (fit_read fit_file) as [[msgs errors]|e]; simplify_eq;
    [|apply writes_ret].
  cbn [file_path]. cbv zeta. unfold unit_paths.
  apply writes_bind; [apply writes_sensor|]. intros accel_df.
  apply writes_bind; [apply writes_save; set_solver|]. intros p_accel.
  apply writes_bind; [apply writes_sensor|]. intros gyro_df.
  apply writes_bind; [apply writes_save; set_solver|]. intros p_gyro.
  apply writes_bind; [apply writes_record|]. intros r.
  apply writes_bind; [apply writes_lift|]. intros [record_df self_report_event_df].
  apply writes_bind; [apply writes_save; set_solver|]. intros p_record.
  apply writes_bind; [apply writes_save; set_solver|]. intros p_self.
  apply writes_bind; [apply writes_print|]. intros _. apply writes_ret.
Qed.

(** The unit of a file on any world: the outcome, the files and the lines are
    those of its run on the empty world. *)
Lemma unit_effect fit_file :
  dom (unit_writes fit_file) ⊆ unit_paths fit_file
  ∧ ∀ w, process_single_file fit_file w
         = (unit_result fit_file,
            {| disk := unit_writes fit_file ∪ disk w;
               stdout := stdout w ++ unit_output fit_file |}).
Proof.
  destruct (writes_unit fit_file) as (o & d & out & Hd & H).
  unfold unit_result, unit_writes, unit_output. rewrite (H empty_world). simpl.
  by rewrite (right_id_L ∅ (∪)).
Qed.

(** A unit leaves every file other than its four tables as it was, and only
    adds lines to the output. *)
Theorem unit_touches_only_its_paths fit_file w :
  (∀ path, path ∉ unit_paths fit_file →
           disk (process_single_file fit_file w).2 !! path = disk w !! path)
  ∧ ∃ out, stdout (process_single_file fit_file w).2 = stdout w ++ out.
Proof.
  destruct (unit_effect fit_file) as [Hdom ->]. simpl. split; [|eauto].
  intros path Hpath. apply lookup_union_r, not_elem_of_dom. set_solver.
Qed.

(** The outcome of a unit does not depend on what is on the disk or on the
    output, and running the unit again on the world it left changes no
    file. *)
Theorem unit_idempotent fit_file w w' :
  (process_single_file fit_file w).1 = (process_single_file fit_file w').1
  ∧ disk (process_single_file fit_file (process_single_file fit_file w).2).2
    = disk (process_single_file fit_file w).2.
Proof.
  destruct (unit_effect fit_file) as [_ H]. rewrite !H. simpl. split; [done|].
  by rewrite (assoc_L (∪)), (idemp_L (∪)).
Qed.

(** Two units one after the other: a file the second unit writes holds the
    table of the second unit, whatever the first wrote there; every other
    file is as the first unit left it. *)
Theorem units_last_writer_wins first second w path :
  let w1 := (process_single_file first w).2 in
  let w2 := (process_single_file second w1).2 in
  disk w2 !! path
  = match disk (process_single_file second empty_world).2 !! path with
    | Some t => Some t
    | None => disk w1 !! path
    end.
Proof.
  intros w1 w2. subst w1 w2.
  destruct (unit_effect second) as [_ H]. rewrite (H (process_single_file first w).2).
  simpl. fold (unit_writes second). rewrite lookup_union.
  by destruct (unit_writes second !! path), (disk _ !! path).
Qed.

Lemma string_app_inv_head (s a b : string) : s +:+ a = s +:+ b → a = b.
Proof. induction s as [|c s IH]; simpl; [done|]. intros [= H]. by apply IH. Qed.

(** The three outcomes of a unit.  A file the decoder refuses gives the flag
    [False] and touches no file.  A decoded file without a record table (no
    record message type, or no record that gives a row) raises [TypeError].
    Every other decoded file gives the flag [True], and its record table and
    its self-report table are both on the disk: a unit never returns [False]
    for a file that was decoded. *)
Theorem unit_outcome_cases fit_file w :
  let r := process_single_file fit_file w in
  let base_name := stem (fit_path fit_file) in
  match fit_read fit_file with
  | Raised _ =>
      r = (Returned (fit_path fit_file, false),
           {| disk := disk w;
              stdout := stdout w ++ [Error_decoding (name (fit_path fit_file))] |})
  | Returned (msgs, _) =>
      match record_walk <$> msgs !! "record_mesgs" with
      | None => r.1 = Raised TypeError
      | Some st =>
          match timestamps st with
          | [] => r.1 = Raised TypeError
          | _ :: _ =>
              r.1 = Returned (fit_path fit_file, true)
              ∧ disk r.2 !! (base_name +:+ "_records.csv")
                = Some (RecordCsv {| rf_timestamp := timestamps st;
                                     rf_heart_rate := heart_rates st;
                                     rf_developer_field := developer_fields st |})
              ∧ disk r.2 !! (base_name +:+ "_self_reports.csv")
                = Some (SelfReportCsv (df_event_self_reports st))
          end
      end
  end.
Proof.
  intros r base_name. subst r base_name.
  destruct (fit_read fit_file) as [[msgs errors]|e] eqn:Hread.
  - destruct (msgs !! "record_mesgs") as [records|] eqn:Hm; simpl.
    + destruct (timestamps (record_walk records)) as [|t ts] eqn:Ets.
      { eapply unit_without_record_table_raises; [done|]. right. eauto. }
      rewrite <- Ets.
      assert (∃ d out,
                process_single_file fit_file w
                = (Returned (fit_path fit_file, true),
                   {| disk :=
                        <[stem (fit_path fit_file) +:+ "_self_reports.csv" :=
                            SelfReportCsv (df_event_self_reports (record_walk records))]>
                          (<[stem (fit_path fit_file) +:+ "_records.csv" :=
                               RecordCsv
                                 {| rf_timestamp := timestamps (record_walk records);
                                    rf_heart_rate := heart_rates (record_walk records);
                                    rf_developer_field :=
                                      developer_fields (record_walk records) |}]> d);
                      stdout := out |})) as (d & out & ->).
      { unfold process_single_file, process_to_csv, decode_file. rewrite Hread.
        set (self := {| file_path := fit_path fit_file; messages := msgs |}).
        unfold iobind at 1 2 3.
        destruct ((match errors with
                   | [] => ret ()
                   | _ :: _ => print (Warning_errors_found (name (fit_path fit_file)))
                   end) w) as [o w0] eqn:E0.
        assert (o = Returned ()) as ->.
        { destruct errors; unfold ret, print in E0; by simplify_eq. }
        unfold ret at 1. cbv zeta.
        destruct (sensor_extract_returns self "accelerometer" _ _ w0 eq_refl)
          as (r1 & w1 & E1).
        unfold iobind at 1. rewrite E1. unfold iobind at 1.
        destruct (save_returns r1 SensorCsv (λ d, length (sf_timestamp d))
                    "accelerometer" (stem (file_path self) +:+ "_accelerometer.csv") w1)
          as (p1 & w2 & E2).
        rewrite E2.
        destruct (sensor_extract_returns self "gyroscope" _ _ w2 eq_refl)
          as (r2 & w3 & E3).
        unfold iobind at 1. rewrite E3. unfold iobind at 1.
        destruct (save_returns r2 SensorCsv (λ d, length (sf_timestamp d))
                    "gyroscope" (stem (file_path self) +:+ "_gyroscope.csv") w3)
          as (p2 & w4 & E4).
        rewrite E4. unfold iobind at 1.
        rewrite (record_extract_rows self records w4 Hm) by by rewrite Ets.
        unfold iobind, lift, unpack, save, to_csv, print, ret. simpl.
        eexists _, _. by destruct p1, p2. }
      simpl. split; [done|]. split.
      * rewrite lookup_insert_ne, lookup_insert_eq; [done|].
        by intros ?%string_app_inv_head.
      * by rewrite lookup_insert_eq.
    + eapply unit_without_record_table_raises; [done|]. by left.
  - unfold process_single_file, process_to_csv, decode_file. rewrite Hread.
    unfold iobind, print, ret. done.
Qed.

(** ** The batch *)

Lemma succeeded_count fit_file n :
  (if match unit_result fit_file with
      | Returned r => r.2
      | Raised _ => false
      end then S n else n)
  = n + length (List.filter succeeded [fit_file]).
Proof.
  unfold succeeded. simpl.
  destruct (unit_result fit_file) as [[p [|]]|]; simpl; lia.
Qed.

(** The pool loop: it returns the number of units that returned [True], and
    the disk is the one the units leave when run in the order of completion. *)
Lemma collect_effect completed success_count w :
  ∃ w', collect completed success_count w
        = (Returned (success_count + length (List.filter succeeded completed)), w')
        ∧ disk w' = batch_disk completed (disk w).
Proof.
  revert success_count w.
  induction completed as [|fit_file rest IH]; intros n w; cbn [collect batch_disk].
  - exists w. unfold ret. simpl. split; [|done]. by rewrite Nat.add_0_r.
  - destruct (unit_effect fit_file) as [_ H]. rewrite H.
    pose proof (succeeded_count fit_file n) as Hn. simpl in Hn.
    unfold succeeded. simpl.
    destruct (unit_result fit_file) as [[p [|]]|e]; simpl in *.
    + destruct (IH (S n) {| disk := unit_writes fit_file ∪ disk w;
                            stdout := stdout w ++ unit_output fit_file |})
        as (w' & -> & Hd).
      exists w'. split; [by rewrite Nat.add_succ_comm|done].
    + destruct (IH n {| disk := unit_writes fit_file ∪ disk w;
                        stdout := stdout w ++ unit_output fit_file |})
        as (w' & -> & Hd).
      exists w'. split; [done|done].
    + unfold iobind, print. simpl.
      destruct (IH n {| disk := unit_writes fit_file ∪ disk w;
                        stdout := (stdout w ++ unit_output fit_file)
                                  ++ [Error_processing (name (fit_path fit_file)) e] |})
        as (w' & -> & Hd).
      exists w'. split; [done|done].
Qed.

(** The sequential loop when no unit raises. *)
Lemma sequential_effect fit_files success_count w :
  Forall (λ f, ∃ r, unit_result f = Returned r) fit_files →
  ∃ w', sequential fit_files success_count w
        = (Returned (success_count + length (List.filter succeeded fit_files)), w')
        ∧ disk w' = batch_disk fit_files (disk w).
Proof.
  intros Hall. revert success_count w.
  induction Hall as [|fit_file rest [r Hr] _ IH]; intros n w;
    cbn [sequential batch_disk].
  - exists w. unfold ret. simpl. split; [|done]. by rewrite Nat.add_0_r.
  - unfold iobind at 1 2. unfold print at 1.
    destruct (unit_effect fit_file) as [_ H]. rewrite H.
    unfold succeeded. simpl. rewrite Hr. simpl.
    destruct r as [p [|]]; simpl.
    + destruct (IH (S n) {| disk := unit_writes fit_file ∪ disk w;
                            stdout := (stdout w ++ [Processing (name (fit_path fit_file))])
                                      ++ unit_output fit_file |})
        as (w' & -> & Hd).
      exists w'. split; [by rewrite Nat.add_succ_comm|done].
    + destruct (IH n {| disk := unit_writes fit_file ∪ disk w;
                        stdout := (stdout w ++ [Processing (name (fit_path fit_file))])
                                  ++ unit_output fit_file |})
        as (w' & -> & Hd).
      exists w'. split; [done|done].
Qed.

(** [process_all_files] on a batch that is not empty, once its loop has
    returned. *)
Lemma batch_summary as_completed fit_files use_multiprocessing success_count w1 w :
  fit_files ≠ [] →
  (if use_multiprocessing && (1 <? length fit_files)
   then collect (as_completed fit_files) 0
   else sequential fit_files 0)
    {| disk := disk w;
       stdout := (stdout w ++ [Found_files (length fit_files)])
                 ++ [Multiprocessing use_multiprocessing] |}
  = (Returned success_count, w1) →
  process_all_files as_completed fit_files use_multiprocessing w
  = (Returned (),
     {| disk := disk w1;
        stdout := (stdout w1 ++ [Total_and_average_time])
                  ++ [Successfully_processed success_count (length fit_files)] |}).
Proof.
  intros Hne Hloop. unfold process_all_files.
  destruct fit_files as [|f fit_files]; [done|].
  unfold iobind at 1 2 3. unfold print at 1 2. cbn [disk stdout].
  rewrite Hloop. unfold iobind, print. done.
Qed.

Lemma succeeded_count_Permutation l l' :
  l ≡ₚ l' → length (List.filter succeeded l) = length (List.filter succeeded l').
Proof.
  induction 1 as [|x l l' _ IH|x y l|l l' l'' _ IH1 _ IH2]; simpl.
  - done.
  - destruct (succeeded x); simpl; by rewrite IH.
  - by destruct (succeeded x), (succeeded y).
  - by rewrite IH1.
Qed.

(** With the pool, the batch never raises, and the count it prints last is
    the number of files whose unit returns [True] out of the number of files,
    whatever the order in which the futures complete. *)
Theorem pool_count_exact as_completed fit_files w :
  1 < length fit_files →
  as_completed fit_files ≡ₚ fit_files →
  ∃ w', process_all_files as_completed fit_files true w = (Returned (), w')
        ∧ last (stdout w')
          = Some (Successfully_processed (length (List.filter succeeded fit_files))
                    (length fit_files)).
Proof.
  intros Hlen Hperm.
  destruct (collect_effect (as_completed fit_files) 0
              {| disk := disk w;
                 stdout := (stdout w ++ [Found_files (length fit_files)])
                           ++ [Multiprocessing true] |}) as (w1 & Hc & _).
  eexists. split.
  - apply batch_summary; [intros ->; simpl in Hlen; lia|].
    rewrite (proj2 (Nat.ltb_lt _ _) Hlen). cbn [andb]. exact Hc.
  - simpl. rewrite last_snoc. by rewrite (succeeded_count_Permutation _ _ Hperm).
Qed.

Lemma batch_disk_Permutation l l' :
  l ≡ₚ l' →
  (∀ f g, f ∈ l → g ∈ l → f = g ∨ unit_paths f ## unit_paths g) →
  ∀ d, batch_disk l d = batch_disk l' d.
Proof.
  induction 1 as [|x l l' Hp IH|x y l|l l' l'' Hp1 IH1 Hp2 IH2]; intros Hdis d;
    cbn [batch_disk].
  - done.
  - apply IH. intros f g Hf Hg. apply Hdis; by right.
  - f_equal. destruct (Hdis x y) as [->|Hxy]; [set_solver|set_solver|done|].
    rewrite !(assoc_L (∪)). f_equal. apply map_union_comm, map_disjoint_dom.
    destruct (unit_effect x) as [Hx _], (unit_effect y) as [Hy _]. set_solver.
  - rewrite IH1 by done. apply IH2.
    intros f g Hf Hg. apply Hdis; by rewrite Hp1.
Qed.

(** When no unit raises and any two files of the batch are the same file or
    have no output path in common, the batch run with the pool switched off
    and the batch run with the pool both return, leave the same files and
    print the same count last, whatever the order in which the futures
    complete. *)
Theorem sequential_agrees_with_pool as_completed fit_files w :
  Forall (λ f, ∃ r, unit_result f = Returned r) fit_files →
  as_completed fit_files ≡ₚ fit_files →
  (∀ f g, f ∈ fit_files → g ∈ fit_files → f = g ∨ unit_paths f ## unit_paths g) →
  let s := process_all_files as_completed fit_files false w in
  let p := process_all_files as_completed fit_files true w in
  s.1 = Returned () ∧ p.1 = Returned ()
  ∧ disk s.2 = disk p.2
  ∧ last (stdout s.2) = last (stdout p.2).
Proof.
  intros Hall Hperm Hdis s p. subst s p.
  destruct fit_files as [|f fit_files]; [done|].
  set (files := f :: fit_files) in *.
  destruct (sequential_effect files 0
              {| disk := disk w;
                 stdout := (stdout w ++ [Found_files (length files)])
                           ++ [Multiprocessing false] |} Hall) as (ws & Hs & Hds).
  erewrite (batch_summary as_completed files false _ ws w); [|done|exact Hs].
  destruct (bool_decide (1 < length files)) eqn:Hlen.
  - apply bool_decide_eq_true in Hlen.
    destruct (collect_effect (as_completed files) 0
                {| disk := disk w;
                   stdout := (stdout w ++ [Found_files (length files)])
                             ++ [Multiprocessing true] |}) as (wp & Hp & Hdp).
    erewrite (batch_summary as_completed files true _ wp w);
      [|done|rewrite (proj2 (Nat.ltb_lt _ _) Hlen); exact Hp].
    simpl. rewrite !last_snoc. repeat split; try done.
    + rewrite Hds, Hdp. apply batch_disk_Permutation; [by symmetry|done].
    + by rewrite (succeeded_count_Permutation _ _ Hperm).
  - apply bool_decide_eq_false in Hlen.
    destruct (sequential_effect files 0
                {| disk := disk w;
                   stdout := (stdout w ++ [Found_files (length files)])
                             ++ [Multiprocessing true] |} Hall) as (wp & Hp & Hdp).
    erewrite (batch_summary as_completed files true _ wp w); [|done|].
    + simpl. rewrite !last_snoc. repeat split; try done. by rewrite Hds, Hdp.
    + rewrite (proj2 (Nat.ltb_ge _ _)) by lia. exact Hp.
Qed.

(** When any two files of the batch are the same file or have no output path
    in common, the files the pool leaves on the disk do not depend on the
    order in which the futures complete. *)
Theorem pool_disk_order_independent as_completed fit_files w :
  as_completed fit_files ≡ₚ fit_files →
  (∀ f g, f ∈ fit_files → g ∈ fit_files → f = g ∨ unit_paths f ## unit_paths g) →
  disk (process_all_files as_completed fit_files true w).2
  = disk (process_all_files id fit_files true w).2.
Proof.
  intros Hperm Hdis.
  destruct fit_files as [|f fit_files]; [done|].
  set (files := f :: fit_files) in *.
  destruct (bool_decide (1 < length files)) eqn:Hlen.
  - apply bool_decide_eq_true in Hlen.
    set (w0 := {| disk := disk w;
                  stdout := (stdout w ++ [Found_files (length files)])
                            ++ [Multiprocessing true] |}).
    destruct (collect_effect (as_completed files) 0 w0) as (w1 & H1 & Hd1).
    destruct (collect_effect (id files) 0 w0) as (w2 & H2 & Hd2).
    erewrite (batch_summary as_completed files true _ w1 w); [|done|].
    + erewrite (batch_summary id files true _ w2 w); [|done|].
      * simpl. rewrite Hd1, Hd2. unfold id. symmetry.
        apply batch_disk_Permutation; [by symmetry|done].
      * rewrite (proj2 (Nat.ltb_lt _ _) Hlen). exact H2.
    + rewrite (proj2 (Nat.ltb_lt _ _) Hlen). exact H1.
  - apply bool_decide_eq_false in Hlen.
    unfold process_all_files. subst files.
    rewrite (proj2 (Nat.ltb_ge _ _)) by lia. done.
Qed.

(** ** More on the sample-group expander *)

(** The expander knows two sensor types.  For them it never raises, and a
    table it returns has four columns of one length with at least one row, so
    the table constructor cannot fail.  For any other sensor type it raises
    [ValueError] before it looks at the messages and prints nothing. *)
Theorem sensor_extract_outcomes self sensor_type w :
  if decide (sensor_type = "accelerometer" ∨ sensor_type = "gyroscope")
  then ∃ r, (_extract_sensor_data_fast self sensor_type w).1 = Returned r
            ∧ ∀ df, r = Some df →
                    aligned df ∧ 0 < length (sf_timestamp df)
                    ∧ length (rows df) = length (sf_timestamp df)
  else _extract_sensor_data_fast self sensor_type w = (Raised ValueError, w).
Proof.
  case_decide as Hs.
  - assert (∃ message_key axis_prefix,
               sensor_keys sensor_type = Returned (message_key, axis_prefix))
      as (message_key & axis_prefix & Hk).
    { destruct Hs as [-> | ->]; by eexists _, _. }
    destruct (messages self !! message_key) as [groups|] eqn:Hm.
    + destruct (extract_present self sensor_type _ _ groups w Hk Hm) as [_ ->].
      destruct (sensor_loop_rows axis_prefix groups no_samples no_samples_aligned)
        as [Ha _].
      eexists. split; [done|]. intros df Hdf.
      pose proof (rows_length _ Ha) as Hl.
      destruct (rows _) as [|row l] eqn:Er; simplify_eq.
      split; [done|]. rewrite Er, <- Hl. simpl. split; [lia|done].
    + exists None. unfold _extract_sensor_data_fast, iobind, lift, ret, print.
      rewrite Hk, Hm. done.
  - unfold _extract_sensor_data_fast, iobind, lift, sensor_keys.
    rewrite !decide_False; [done|tauto|tauto].
Qed.

Lemma zip_rows_columns ts xs ys zs :
  length xs = length ts → length ys = length ts → length zs = length ts →
  row_timestamp <$> zip_rows ts xs ys zs = ts
  ∧ row_x <$> zip_rows ts xs ys zs = xs
  ∧ row_y <$> zip_rows ts xs ys zs = ys
  ∧ row_z <$> zip_rows ts xs ys zs = zs.
Proof.
  revert xs ys zs. induction ts as [|t ts IH]; intros [|x xs] [|y ys] [|z zs] Hx Hy Hz;
    try done.
  destruct (IH xs ys zs) as (H1 & H2 & H3 & H4); [simpl in *; lia..|].
  cbn [zip_rows]. rewrite !fmap_cons, H1, H2, H3, H4. done.
Qed.

(** A group is used whole or not at all.  Either it adds no row (its length
    test failed, or reading its base timestamp or one of its offsets raised),
    or its four fields are sequences and it adds one row per offset, carrying
    all of the x, y and z values in their order.  (The elements of a list are
    its values; those of a dict are its keys.) *)
Theorem group_whole_or_nothing axis_prefix group :
  group_rows axis_prefix group = []
  ∨ ∃ offsets xs ys zs,
      iter (get group "sample_time_offset" (VList [])) = Returned offsets
      ∧ iter (get group (axis_prefix +:+ "_x") (VList [])) = Returned xs
      ∧ iter (get group (axis_prefix +:+ "_y") (VList [])) = Returned ys
      ∧ iter (get group (axis_prefix +:+ "_z") (VList [])) = Returned zs
      ∧ length (group_rows axis_prefix group) = length offsets
      ∧ row_x <$> group_rows axis_prefix group = xs
      ∧ row_y <$> group_rows axis_prefix group = ys
      ∧ row_z <$> group_rows axis_prefix group = zs.
Proof.
  unfold group_rows, group_columns.
  destruct (group_body axis_prefix group) as [[[[[ts xs] ys] zs]|]|] eqn:E;
    [|by left|by left].
  right.
  apply group_body_inv in E
    as (offsets & n & Io & Ix & Iy & Iz & _ & _ & _ & _ & Lo & Lt & Lx & Ly & Lz).
  exists offsets, xs, ys, zs. unfold rows. simpl.
  destruct (zip_rows_columns ts xs ys zs) as (_ & -> & -> & ->); [lia..|].
  rewrite zip_rows_length by lia. repeat split; try done. lia.
Qed.

(** ** File names and the device check *)

Lemma endswith_fit_FIT s : endswith s ".FIT" = true → endswith s ".fit" = false.
Proof.
  unfold endswith. cbn [String.length].
  destruct (4 <=? String.length s); cbn [andb]; [|done].
  intros H%String.eqb_eq. rewrite H. done.
Qed.

(** [find_fit_files] returns the files of the directory whose name ends in
    [.fit] or in [.FIT], and no other spelling of the extension; when the
    directory lists no file twice, no file is returned twice. *)
Theorem find_fit_files_spec listing :
  NoDup listing →
  NoDup (find_fit_files listing)
  ∧ ∀ f, f ∈ find_fit_files listing ↔
         f ∈ listing
         ∧ (endswith (name (fit_path f)) ".fit" = true
            ∨ endswith (name (fit_path f)) ".FIT" = true).
Proof.
  intros Hnd. unfold find_fit_files. split.
  - assert (∀ p, NoDup (List.filter p listing)) as Hf.
    { intros p. by apply NoDup_ListNoDup, List.NoDup_filter, NoDup_ListNoDup. }
    apply NoDup_app. split; [apply Hf|]. split; [|apply Hf].
    intros f [_ H1]%list_elem_of_In%List.filter_In [_ H2]%list_elem_of_In%List.filter_In.
    apply endswith_fit_FIT in H2. congruence.
  - intros f. rewrite elem_of_app, !list_elem_of_In, !List.filter_In. tauto.
Qed.

Lemma check_files_expected folder files expected out :
  Forall (λ entry, endswith entry.1 ".fit" = true → ∃ v, extract_id entry.2 = inr v)
    files →
  check_files folder files (Some expected) out
  = {| first_file_unit_id := Some expected;
       printed := out ++ mismatches folder expected (fit_ids files);
       raised := None |}.
Proof.
  intros Hall. revert out.
  induction Hall as [|[file read] files Hok _ IH]; intros out.
  - unfold mismatches. simpl. by rewrite app_nil_r.
  - cbn [check_files fit_ids omap list_omap]. simpl in Hok. simpl.
    destruct (endswith file ".fit"); simpl; [|apply IH].
    destruct (Hok eq_refl) as [v ->]. unfold mismatches. simpl.
    case_decide as Hne.
    + rewrite IH, bool_decide_true by done. unfold mismatches. simpl.
      by rewrite <- app_assoc.
    + rewrite IH, bool_decide_false by naive_solver. done.
Qed.

(** In a folder whose [.fit] files all give a serial number, the check
    raises nothing and prints one line for each [.fit] file after the first
    whose serial number differs from that of the first [.fit] file, in the
    order of the listing; the files are compared with the first one only. *)
Theorem check_sub_dir_reports folder files :
  Forall (λ entry, endswith entry.1 ".fit" = true → ∃ v, extract_id entry.2 = inr v)
    files →
  printed (check_sub_dir folder files)
  = match fit_ids files with
    | [] => []
    | reference :: others => mismatches folder reference.2 others
    end
  ∧ raised (check_sub_dir folder files) = None.
Proof.
  unfold check_sub_dir.
  induction 1 as [|[file read] files Hok Hall IH]; [done|].
  cbn [check_files fit_ids omap list_omap]. simpl in Hok. simpl.
  destruct (endswith file ".fit"); simpl; [|apply IH].
  destruct (Hok eq_refl) as [v ->].
  by rewrite check_files_expected.
Qed.

(** Names that do not end in [.fit] are passed over without being decoded:
    the check of a listing is the check of its [.fit] names alone. *)
Theorem check_sub_dir_only_fit_names folder files :
  check_sub_dir folder files
  = check_sub_dir folder (List.filter (λ entry, endswith entry.1 ".fit") files).
Proof.
  unfold check_sub_dir. generalize (@None value) at 1 2. generalize (@nil report).
  induction files as [|[file read] files IH]; intros out first; [done|].
  cbn [check_files List.filter]. simpl.
  destruct (endswith file ".fit") eqn:E; simpl; [|apply IH].
  rewrite E. simpl. destruct (extract_id read) as [e|v]; [done|].
  destruct first as [expected|]; [|apply IH].
  case_decide; apply IH.
Qed.

Lemma check_files_app folder files files' first out :
  raised (check_files folder files first out) = None →
  check_files folder (files ++ files') first out
  = check_files folder files'
      (first_file_unit_id (check_files folder files first out))
      (printed (check_files folder files first out)).
Proof.
  revert first out. induction files as [|[file read] files IH]; intros first out;
    [done|].
  cbn [check_files app]. destruct (negb (endswith file ".fit")); [apply IH|].
  destruct (extract_id read) as [e|v]; [done|].
  destruct first as [expected|]; [|apply IH].
  case_decide; apply IH.
Qed.

(** The check has no handler: the first [.fit] file that [extract_id] cannot
    read ends it with that exception.  The lines printed so far stay and
    the files after it are not looked at. *)
Theorem check_sub_dir_stops_at_unreadable folder files file read files' e :
  raised (check_sub_dir folder files) = None →
  endswith file ".fit" = true →
  extract_id read = inl e →
  let r := check_sub_dir folder (files ++ (file, read) :: files') in
  raised r = Some e ∧ printed r = printed (check_sub_dir folder files).
Proof.
  intros Hok Hfit He r. subst r. unfold check_sub_dir in *.
  rewrite check_files_app by done. cbn [check_files]. by rewrite Hfit, He.
Qed.

(** A file whose name ends in [.FIT] is converted by the pipeline but passed
    over by the device check. *)
Theorem upper_case_fit_converted_not_checked listing f :
  f ∈ listing →
  endswith (name (fit_path f)) ".FIT" = true →
  f ∈ find_fit_files listing
  ∧ ∀ folder files first out,
      check_files folder ((name (fit_path f), fit_read f) :: files) first out
      = check_files folder files first out.
Proof.
  intros Hin Hup. split.
  - unfold find_fit_files. rewrite elem_of_app, !list_elem_of_In, !List.filter_In.
    right. split; [by apply list_elem_of_In|done].
  - intros folder files first out. cbn [check_files].
    by rewrite (endswith_fit_FIT _ Hup).
Qed.

Lemma record_step_keeps_intervals st record i r :
  detector_inv (df_event_self_reports st) (is_event_active st) →
  df_event_self_reports st !! i = Some r →
  ∃ r', df_event_self_reports (record_step st record) !! i = Some r'
        ∧ start_timestamp r' = start_timestamp r
        ∧ sr_event_type r' = sr_event_type r
        ∧ (sr_end_timestamp r ≠ NAN → r' = r).
Proof.
  intros Hinv Hi.
  destruct (record_step_detector_cases st record)
    as [[= -> _] | (t & et & _ & _ & _
                    & [(_ & [= -> _]) | (Hact & df' & Hs & [= -> _])])].
  - by exists r.
  - exists r. split; [|done]. by apply lookup_app_l_Some.
  - apply set_last_end_inv in Hs as ->. rewrite Hact in Hinv.
    destruct Hinv as (earlier & opened & Hdf & Hop & _).
    destruct (decide (i = length (df_event_self_reports st) - 1)) as [->|Hne].
    + rewrite list_lookup_alter_eq, Hi. simpl. eexists. split; [done|].
      split; [done|]. split; [done|]. intros Hclosed. exfalso. apply Hclosed.
      rewrite Hdf in Hi. rewrite length_app in Hi. simpl in Hi.
      replace (length earlier + 1 - 1) with (length earlier + 0) in Hi by lia.
      rewrite lookup_app_r in Hi by lia.
      replace (length earlier + 0 - length earlier) with 0 in Hi by lia.
      simpl in Hi. by simplify_eq.
    + rewrite list_lookup_alter_ne by done. by exists r.
Qed.

(** The self-report table only grows at its end.  An interval that is in the
    table after some records is still at the same place after more records,
    with the same start and the same event type; once it is closed it never
    changes again. *)
Theorem intervals_are_append_only records records' i r :
  df_event_self_reports (record_walk records) !! i = Some r →
  ∃ r', df_event_self_reports (record_walk (records ++ records')) !! i = Some r'
        ∧ start_timestamp r' = start_timestamp r
        ∧ sr_event_type r' = sr_event_type r
        ∧ (sr_end_timestamp r ≠ NAN → r' = r).
Proof.
  intros Hi. induction records' as [|record records' IH] using rev_ind.
  - rewrite app_nil_r. by exists r.
  - destruct IH as (r1 & H1 & Hs1 & He1 & Hc1).
    rewrite app_assoc, record_walk_snoc.
    destruct (record_step_keeps_intervals (record_walk (records ++ records'))
                record i r1 (record_walk_inv _) H1) as (r2 & H2 & Hs2 & He2 & Hc2).
    exists r2. split; [done|]. split; [congruence|]. split; [congruence|].
    intros Hclosed. specialize (Hc1 Hclosed). subst r1. by apply Hc2.
Qed.

End Properties.

(** ** Concrete runs, on [utc_clock] *)

Ltac run := vm_compute; repeat split; try reflexivity; try discriminate.

(** C1: on a file that has accelerometer data and no record message type the
    unit writes the accelerometer table and then raises [TypeError], since
    [_extract_record_data_fast] returned [None] and [process_to_csv] unpacks
    it as a pair; [process_single_file] returns no success flag. *)
Theorem sensor_only_file_raises :
  let r := process_single_file (clock := utc_clock) sensor_only_file empty_world in
  r.1 = Raised TypeError
  ∧ disk r.2 !! "walk_accelerometer.csv"
    = Some (SensorCsv {| sf_timestamp := [UNIX_EPOCH + 1000000; UNIX_EPOCH + 1010000]%Z;
                         sf_x := [SInt 1; SInt 2];
                         sf_y := [SInt 3; SInt 4];
                         sf_z := [SInt 5; SInt 6] |})
  ∧ stdout r.2
    = [Wrote 2 "accelerometer" "walk_accelerometer.csv";
       No_sensor_data "gyroscope" "walk.fit";
       No_record_messages "walk.fit"].
Proof. run. Qed.

(** C2: in the sequential branch the [TypeError] of the first file leaves
    [process_all_files]: the second file is not processed and no summary is
    printed, with the pool switched off and also for a batch of one file with
    the pool switched on.  The pool branch catches the same exception and
    goes on to the second file. *)
Theorem sequential_batch_aborts :
  let batch := [sensor_only_file; complete_file] in
  let seq := process_all_files (clock := utc_clock) id batch false empty_world in
  let alone := process_all_files (clock := utc_clock) id [sensor_only_file] true empty_world in
  let pool := process_all_files (clock := utc_clock) id batch true empty_world in
  seq.1 = Raised TypeError
  ∧ disk seq.2 !! "run_records.csv" = None
  ∧ stdout seq.2
    = [Found_files 2; Multiprocessing false; Processing "walk.fit";
       Wrote 2 "accelerometer" "walk_accelerometer.csv";
       No_sensor_data "gyroscope" "walk.fit";
       No_record_messages "walk.fit"]
  ∧ alone.1 = Raised TypeError
  ∧ pool.1 = Returned ()
  ∧ is_Some (disk pool.2 !! "run_records.csv")
  ∧ last (stdout pool.2) = Some (Successfully_processed 1 2).
Proof. run. by eexists. Qed.

(** C3 fails on the code: the detector is active, the record has the active
    flag 0, which is not the on-value, and the event-type code 3; the interval
    stays open and the detector stays active.  The records are shaped as the
    decoder gives them. *)
Lemma off_with_unrecognised_code_ignored :
  let before := record_walk (clock := utc_clock) [record_dict 10 1 1] in
  let after := record_walk (clock := utc_clock) [record_dict 10 1 1; record_dict 20 0 3] in
  is_event_active before = true
  ∧ eq_int (SInt 0) 1 = false
  ∧ is_event_active after = true
  ∧ df_event_self_reports after
    = [{| start_timestamp := 10%Z; sr_end_timestamp := NAN; sr_event_type := SInt 1 |}]
  ∧ (_extract_record_data_fast (clock := utc_clock)
       (record_processor [record_dict 10 1 1; record_dict 20 0 3]) empty_world).1
    = Returned
        (Some ({| rf_timestamp := [10; 20]%Z;
                  rf_heart_rate := [VScalar (SInt 60); VScalar (SInt 60)];
                  rf_developer_field := [Some (str (SInt 7)); Some (str (SInt 7))] |},
               [{| start_timestamp := 10%Z;
                   sr_end_timestamp := NAN;
                   sr_event_type := SInt 1 |}])).
Proof. run. Qed.

(** C4 fails on the code: a table without the accelerometer message type and
    a table that has it with a group that yields no row give the same
    result. *)
Lemma absent_and_empty_alike :
  messages no_sensor_processor !! "accelerometer_data_mesgs" = None
  ∧ messages (accel_processor [ragged]) !! "accelerometer_data_mesgs" = Some [ragged]
  ∧ (_extract_sensor_data_fast (clock := utc_clock)
       no_sensor_processor "accelerometer" empty_world).1
    = (_extract_sensor_data_fast (clock := utc_clock)
         (accel_processor [ragged]) "accelerometer" empty_world).1.
Proof. split; [reflexivity|]. split; [reflexivity|]. by vm_compute. Qed.


(** ** The theorems at concrete inputs *)

Ltac concrete :=
  first
    [ reflexivity
    | lia
    | repeat constructor; by vm_compute
    | let H1 := fresh in let H2 := fresh in
      intros (? & H1 & H2 & _); vm_compute in H1, H2; congruence ].

Ltac discharge H :=
  repeat
    (lazymatch type of H with
     | ?P → _ =>
         let h := fresh in
         assert (h : P) by concrete; specialize (H h); clear h
     end).

(** Three groups, the first one ragged: the second adds its two rows. *)
Lemma expander_valid_group_witness :
  let self := accel_processor [ragged; two_samples; two_samples] in
  let extract p :=
    table_rows (_extract_sensor_data_fast (clock := utc_clock) p
                  "accelerometer" empty_world) in
  ∃ emitted : list SensorSampleRow,
    extract self
    = extract (with_messages self "accelerometer_data_mesgs" [ragged])
      ++ emitted
      ++ extract (with_messages self "accelerometer_data_mesgs" [two_samples])
    ∧ length emitted = 2
    ∧ emitted !! 1
      = Some {| row_timestamp := (UNIX_EPOCH + 1010000)%Z;
                row_x := SInt 2; row_y := SInt 4; row_z := SInt 6 |}.
Proof.
  intros self extract.
  pose proof
    (expander_valid_group (clock := utc_clock) self "accelerometer"
       "accelerometer_data_mesgs" "calibrated_accel" [ragged] two_samples
       [two_samples] 1000%Z (UNIX_EPOCH + 1000000)%Z [0; 10]%Z
       [SInt 1; SInt 2] [SInt 3; SInt 4] [SInt 5; SInt 6] empty_world) as H.
  discharge H. destruct H as (emitted & H1 & H2 & H3).
  exists emitted. split; [exact H1|]. split; [exact H2|].
  rewrite (H3 1 10%Z (SInt 2) (SInt 4) (SInt 6) eq_refl eq_refl eq_refl eq_refl).
  by vm_compute.
Defined.

(** A ragged group between two good ones. *)
Lemma mismatched_group_dropped_witness :
  let self := accel_processor [two_samples; ragged; two_samples] in
  group_rows (clock := utc_clock) "calibrated_accel" ragged = []
  ∧ _extract_sensor_data_fast (clock := utc_clock) self "accelerometer" empty_world
    = _extract_sensor_data_fast (clock := utc_clock)
        (with_messages self "accelerometer_data_mesgs" ([two_samples] ++ [two_samples]))
        "accelerometer" empty_world.
Proof.
  intros self.
  pose proof
    (mismatched_group_dropped (clock := utc_clock) self "accelerometer"
       "accelerometer_data_mesgs" "calibrated_accel" [two_samples] ragged
       [two_samples] empty_world) as H.
  discharge H. exact H.
Defined.

(** A group without base timestamp: its rows are dated from the epoch. *)
Lemma absent_base_timestamp_witness :
  let self := accel_processor [two_samples_no_base] in
  let extract p :=
    table_rows (_extract_sensor_data_fast (clock := utc_clock) p
                  "accelerometer" empty_world) in
  ∃ emitted : list SensorSampleRow,
    extract self
    = extract (with_messages self "accelerometer_data_mesgs" [])
      ++ emitted
      ++ extract (with_messages self "accelerometer_data_mesgs" [])
    ∧ length emitted = 2
    ∧ emitted !! 1
      = Some {| row_timestamp := (UNIX_EPOCH + 10000)%Z;
                row_x := SInt 2; row_y := SInt 4; row_z := SInt 6 |}.
Proof.
  intros self extract.
  pose proof
    (absent_base_timestamp (clock := utc_clock) self "accelerometer"
       "accelerometer_data_mesgs" "calibrated_accel" [] two_samples_no_base []
       UNIX_EPOCH [0; 10]%Z [SInt 1; SInt 2] [SInt 3; SInt 4] [SInt 5; SInt 6]
       empty_world) as H.
  discharge H. destruct H as (_ & emitted & H1 & H2 & H3).
  exists emitted. split; [exact H1|]. split; [exact H2|].
  rewrite (H3 1 10%Z (SInt 2) (SInt 4) (SInt 6) eq_refl eq_refl eq_refl eq_refl).
  by vm_compute.
Defined.

(** A table whose only group is ragged. *)
Lemma no_data_or_rows_witness :
  ∃ r : option SensorFrame,
    (_extract_sensor_data_fast (clock := utc_clock) (accel_processor [ragged])
       "accelerometer" empty_world).1 = Returned r
    ∧ (r = None ↔
         messages (accel_processor [ragged]) !! "accelerometer_data_mesgs" = None
         ∨ ∃ groups,
             messages (accel_processor [ragged]) !! "accelerometer_data_mesgs"
             = Some groups
             ∧ Forall (λ g, group_rows (clock := utc_clock) "calibrated_accel" g = [])
                 groups).
Proof.
  pose proof
    (no_data_or_rows (clock := utc_clock) (accel_processor [ragged]) "accelerometer"
       "accelerometer_data_mesgs" "calibrated_accel" empty_world) as H.
  discharge H. destruct H as (r & H1 & H2 & _).
  exists r. split; [exact H1|exact H2].
Defined.


(** A second on record, with another code, after the one that opened. *)
Lemma at_most_one_open_interval_witness :
  let st :=
    record_walk (clock := utc_clock) (take 1 [record_at 10 1 1; record_at 20 1 2]) in
  open_count (df_event_self_reports st) ≤ 1
  ∧ df_event_self_reports (record_step (clock := utc_clock) st (record_at 20 1 2))
    = df_event_self_reports st
  ∧ is_event_active (record_step (clock := utc_clock) st (record_at 20 1 2)) = true.
Proof.
  intros st.
  destruct (at_most_one_open_interval (clock := utc_clock)
              [record_at 10 1 1; record_at 20 1 2] 1) as [H1 H2].
  split; [exact H1|].
  pose proof (H2 (record_at 20 1 2) (SInt 1)) as H.
  discharge H. exact H.
Defined.

(** An off record with code 2 closes the interval opened with code 1; an off
    record with code 3 does not. *)
Lemma off_closes_open_interval_witness :
  let before := record_walk (clock := utc_clock) [record_dict 10 1 1] in
  let after :=
    record_walk (clock := utc_clock) ([record_dict 10 1 1] ++ [record_dict 20 0 2]) in
  (∃ df_records,
     _extract_record_data_fast (clock := utc_clock)
       (record_processor ([record_dict 10 1 1] ++ [record_dict 20 0 2])) empty_world
     = (Returned (Some (df_records, df_event_self_reports after)), empty_world))
  ∧ (∃ earlier opened,
       df_event_self_reports before = earlier ++ [opened]
       ∧ sr_end_timestamp opened = NAN
       ∧ df_event_self_reports after = earlier ++ [set_end 20%Z opened]
       ∧ is_event_active after = false)
  ∧ is_event_active
      (record_walk (clock := utc_clock) ([record_dict 10 1 1] ++ [record_dict 20 0 3]))
    = true.
Proof.
  intros before after. split; [|split].
  - pose proof
      (off_closes_open_interval (clock := utc_clock) [record_dict 10 1 1]
         (record_dict 20 0 2)) as H.
    discharge H. destruct H as [[df_records H] _].
    exists df_records. apply H. reflexivity.
  - pose proof
      (off_closes_open_interval (clock := utc_clock) [record_dict 10 1 1]
         (record_dict 20 0 2)) as H.
    discharge H. destruct H as (_ & H & _).
    specialize (H 20%Z (SInt 7) (SInt 0) (SInt 2)).
    discharge H. exact H.
  - pose proof
      (off_closes_open_interval (clock := utc_clock) [record_dict 10 1 1]
         (record_dict 20 0 3)) as H.
    discharge H. destruct H as (_ & _ & H).
    specialize (H (SInt 3)).
    discharge H. exact (proj2 H).
Defined.

(** A stream that ends one record after the interval was opened. *)
Lemma truncated_stream_keeps_open_interval_witness :
  ∃ pre record post timestamp event_type df_records,
    [record_at 10 1 2; record_plain 15] = pre ++ record :: post
    ∧ _extract_record_data_fast (clock := utc_clock)
        (record_processor [record_at 10 1 2; record_plain 15]) empty_world
      = (Returned
           (Some (df_records,
                  df_event_self_reports (record_walk (clock := utc_clock) pre)
                  ++ [{| start_timestamp := timestamp;
                         sr_end_timestamp := NAN;
                         sr_event_type := event_type |}])),
         empty_world).
Proof.
  pose proof
    (truncated_stream_keeps_open_interval (clock := utc_clock)
       (record_processor [record_at 10 1 2; record_plain 15])
       [record_at 10 1 2; record_plain 15] empty_world) as H.
  discharge H.
  destruct H as (pre & record & post & timestamp & event_type & df_records
                 & H1 & _ & _ & _ & H5).
  exists pre, record, post, timestamp, event_type, df_records.
  split; [exact H1|exact H5].
Defined.

(** ** More theorems at concrete inputs *)

(** On, on again with another code, a record without flag, then off. *)
Lemma on_then_off_one_interval_witness :
  let st :=
    record_walk (clock := utc_clock)
      ([] ++ record_dict 10 1 1
          :: [record_dict 12 1 2; record_other_field_only 15] ++ [record_dict 20 0 2]) in
  df_event_self_reports st
  = df_event_self_reports (record_walk (clock := utc_clock) [])
    ++ [{| start_timestamp := 10%Z;
           sr_end_timestamp := Closed 20%Z;
           sr_event_type := SInt 1 |}]
  ∧ is_event_active st = false
  ∧ ∃ df_records,
      _extract_record_data_fast (clock := utc_clock)
        (record_processor
           ([] ++ record_dict 10 1 1
               :: [record_dict 12 1 2; record_other_field_only 15]
                  ++ [record_dict 20 0 2]))
        empty_world
      = (Returned (Some (df_records, df_event_self_reports st)), empty_world).
Proof.
  pose proof
    (on_then_off_one_interval (clock := utc_clock) [] (record_dict 10 1 1)
       [record_dict 12 1 2; record_other_field_only 15] (record_dict 20 0 2)
       10%Z 20%Z (SInt 7) (SInt 7) (SInt 1) (SInt 2)) as H.
  discharge H.
  assert (Forall (λ record : MessageRecord,
                    ∀ field, getitem (get record "developer_fields" (VList [])) 1
                             = Returned field
                             → eq_int field 0 = false)
            [record_dict 12 1 2; record_other_field_only 15]) as Hmid.
  { repeat constructor; intros field Hf; vm_compute in Hf; by simplify_eq. }
  specialize (H Hmid). discharge H.
  destruct H as (H1 & H2 & df_records & H3).
  split; [exact H1|]. split; [exact H2|].
  exists df_records. apply H3. reflexivity.
Defined.

(** Of five records, the one without timestamp, the one whose timestamp does
    not convert and the one with developer fields but no entry 0 give no
    row. *)
Lemma record_table_rows_witness :
  (_extract_record_data_fast (clock := utc_clock)
     (record_processor
        [record_dict 10 1 1; record_undated; record_other_field_only 15;
         record_far_future; record_primary_only 17])
     empty_world).1
  = Returned
      (Some ({| rf_timestamp := [10; 17]%Z;
                rf_heart_rate := [VScalar (SInt 60); VScalar (SInt 61)];
                rf_developer_field := [Some (str (SInt 7)); Some (str (SInt 8))] |},
             [{| start_timestamp := 10%Z;
                 sr_end_timestamp := NAN;
                 sr_event_type := SInt 1 |}])).
Proof.
  pose proof
    (record_table_rows (clock := utc_clock)
       (record_processor
          [record_dict 10 1 1; record_undated; record_other_field_only 15;
           record_far_future; record_primary_only 17])
       [record_dict 10 1 1; record_undated; record_other_field_only 15;
        record_far_future; record_primary_only 17]
       empty_world) as H.
  discharge H. rewrite H. by vm_compute.
Defined.

(** A stream of two records: both tables are returned. *)
Lemma record_extract_cases_witness :
  ∃ df_records df_self_reports,
    (_extract_record_data_fast (clock := utc_clock)
       (record_processor [record_at 10 1 2; record_plain 15]) empty_world).1
    = Returned (Some (df_records, df_self_reports))
    ∧ length (rf_heart_rate df_records) = length (rf_timestamp df_records)
    ∧ 0 < length (rf_timestamp df_records).
Proof.
  destruct (record_extract_cases (clock := utc_clock)
              (record_processor [record_at 10 1 2; record_plain 15]) empty_world)
    as (r & H1 & _ & H3).
  destruct r as [[df_records df_self_reports]|];
    [|vm_compute in H1; discriminate].
  destruct (H3 df_records df_self_reports eq_refl)
    as (records & _ & _ & _ & _ & H4 & _ & H5 & _).
  exists df_records, df_self_reports. split; [exact H1|]. split; [exact H4|exact H5].
Defined.

(** The end of the closed interval is the timestamp of a row. *)
Lemma interval_bounds_are_record_timestamps_witness :
  Forall (λ r, ∀ t, sr_end_timestamp r = Closed t → t ∈ [10; 20]%Z)
    [{| start_timestamp := 10%Z; sr_end_timestamp := Closed 20%Z;
        sr_event_type := SInt 1 |}].
Proof.
  pose proof
    (interval_bounds_are_record_timestamps (clock := utc_clock)
       [record_at 10 1 1; record_at 20 0 1]) as H.
  vm_compute in H. eapply Forall_impl; [exact H|].
  intros r [_ H2]. exact H2.
Defined.

(** A table returned for the accelerometer. *)
Lemma sensor_extract_outcomes_witness :
  ∃ df,
    (_extract_sensor_data_fast (clock := utc_clock) (accel_processor [two_samples])
       "accelerometer" empty_world).1 = Returned (Some df)
    ∧ aligned df ∧ 0 < length (sf_timestamp df).
Proof.
  pose proof
    (sensor_extract_outcomes (clock := utc_clock) (accel_processor [two_samples])
       "accelerometer" empty_world) as H.
  rewrite decide_True in H by (by left).
  destruct H as (r & H1 & H2).
  destruct r as [df|]; [|vm_compute in H1; discriminate].
  destruct (H2 df eq_refl) as (Ha & Hl & _).
  exists df. split; [exact H1|]. split; [exact Ha|exact Hl].
Defined.

(** A file of the directory that the unit of [run.fit] does not write. *)
Lemma unit_touches_only_its_paths_witness :
  disk (process_single_file (clock := utc_clock) complete_file busy_world).2 !! "notes.csv"
  = disk busy_world !! "notes.csv".
Proof.
  destruct (unit_touches_only_its_paths (clock := utc_clock) complete_file busy_world)
    as [H _].
  apply H. apply (bool_decide_unpack _). by vm_compute.
Defined.

(** Two files, the first of which raises, completing in reverse order. *)
Lemma pool_count_exact_witness :
  ∃ w', process_all_files (clock := utc_clock) reverse
          [sensor_only_file; complete_file] true empty_world = (Returned (), w')
        ∧ last (stdout w') = Some (Successfully_processed 1 2).
Proof.
  pose proof
    (pool_count_exact (clock := utc_clock) reverse [sensor_only_file; complete_file]
       empty_world) as H.
  discharge H.
  destruct H as (w' & H1 & H2).
  exists w'. split; [exact H1|]. rewrite H2. by vm_compute.
Defined.

(** Two files whose units return. *)
Lemma sequential_agrees_with_pool_witness :
  let s := process_all_files (clock := utc_clock) reverse [complete_file; second_file]
             false empty_world in
  let p := process_all_files (clock := utc_clock) reverse [complete_file; second_file]
             true empty_world in
  s.1 = Returned () ∧ p.1 = Returned ()
  ∧ disk s.2 = disk p.2
  ∧ last (stdout s.2) = last (stdout p.2).
Proof.
  apply (sequential_agrees_with_pool (clock := utc_clock)).
  - repeat constructor; eexists; by vm_compute.
  - apply reverse_Permutation.
  - intros f g Hf Hg.
    rewrite !elem_of_cons, elem_of_nil in Hf, Hg.
    destruct Hf as [-> | [-> | []]], Hg as [-> | [-> | []]];
      first [by left | right; apply (bool_decide_unpack _); by vm_compute].
Defined.

Lemma pool_disk_order_independent_witness :
  disk (process_all_files (clock := utc_clock) reverse
          [complete_file; second_file] true empty_world).2
  = disk (process_all_files (clock := utc_clock) id
            [complete_file; second_file] true empty_world).2.
Proof.
  apply (pool_disk_order_independent (clock := utc_clock)).
  - apply reverse_Permutation.
  - intros f g Hf Hg.
    rewrite !elem_of_cons, elem_of_nil in Hf, Hg.
    destruct Hf as [-> | [-> | []]], Hg as [-> | [-> | []]];
      first [by left | right; apply (bool_decide_unpack _); by vm_compute].
Defined.

(** A directory with one name of each spelling. *)
Lemma find_fit_files_spec_witness :
  NoDup (find_fit_files [complete_file; second_file]).
Proof.
  apply find_fit_files_spec.
  apply NoDup_cons. split; [|apply NoDup_singleton].
  rewrite list_elem_of_singleton. intros H. by apply (f_equal (λ f, stem (fit_path f))) in H.
Defined.

(** Three files of one device and one of another; a name that is no
    [.fit] name is not decoded. *)
Lemma check_sub_dir_reports_witness :
  printed (check_sub_dir "day1"
             [("a.fit", device_file 7); ("b.fit", device_file 9);
              ("notes.txt", Raised OSError); ("c.fit", device_file 7)])
  = [MISMATCH "b.fit" (VScalar (SInt 9)) (VScalar (SInt 7)) "day1"].
Proof.
  pose proof
    (check_sub_dir_reports "day1"
       [("a.fit", device_file 7); ("b.fit", device_file 9);
        ("notes.txt", Raised OSError); ("c.fit", device_file 7)]) as H.
  assert (Forall (λ entry : string * outcome (MessageTable * list string),
                    endswith entry.1 ".fit" = true → ∃ v, extract_id entry.2 = inr v)
            [("a.fit", device_file 7); ("b.fit", device_file 9);
             ("notes.txt", Raised OSError); ("c.fit", device_file 7)]) as Hall.
  { repeat constructor; intros Hfit; first [discriminate Hfit | by eexists]. }
  destruct (H Hall) as [-> _]. by vm_compute.
Defined.

(** A file without [file_id] message between two good ones. *)
Lemma check_sub_dir_stops_at_unreadable_witness :
  let r := check_sub_dir "day1"
             ([("a.fit", device_file 7)]
              ++ ("b.fit", Returned (∅, [])) :: [("c.fit", device_file 9)]) in
  raised r = Some (KeyError "file_id_mesgs")
  ∧ printed r = printed (check_sub_dir "day1" [("a.fit", device_file 7)]).
Proof.
  apply check_sub_dir_stops_at_unreadable; reflexivity.
Defined.

Lemma upper_case_fit_converted_not_checked_witness :
  second_file ∈ find_fit_files [complete_file; second_file]
  ∧ check_files "day1" [(name (fit_path second_file), fit_read second_file)] None []
    = check_files "day1" [] None [].
Proof.
  destruct (upper_case_fit_converted_not_checked [complete_file; second_file] second_file)
    as [H1 H2]; [set_solver|reflexivity|].
  split; [exact H1|apply H2].
Defined.


(** The interval closed by the second record, two records later. *)
Lemma intervals_are_append_only_witness :
  ∃ r', df_event_self_reports
          (record_walk (clock := utc_clock)
             ([record_at 10 1 1; record_at 20 0 1] ++ [record_at 30 1 2; record_at 40 0 2]))
        !! 0 = Some r'
        ∧ r' = {| start_timestamp := 10%Z; sr_end_timestamp := Closed 20%Z;
                  sr_event_type := SInt 1 |}.
Proof.
  destruct (intervals_are_append_only (clock := utc_clock)
              [record_at 10 1 1; record_at 20 0 1] [record_at 30 1 2; record_at 40 0 2]
              0 {| start_timestamp := 10%Z; sr_end_timestamp := Closed 20%Z;
                   sr_event_type := SInt 1 |})
    as (r' & H1 & _ & _ & H4); [by vm_compute|].
  exists r'. split; [exact H1|]. by apply H4.
Defined.
